(** * spawn.py: a shallow embedding and its verified properties

    The module [spawn] wraps [subprocess.Popen]: a [Process] describes one
    external command, a [Pipe] chains a preceding runnable into a terminal
    [Process].  This development embeds the module function by function.

    - Python values that reach the module (stream modes, substitution
      values, spawn options) are the inductive [value].
    - A Python call either returns, raises, or never returns: [outcome].
    - Constructors and [cmdline] touch no external state and live in the
      error monad [res]; [start], [poll], [wait] and the signal methods act on
      the interpreter and operating-system state [World] through the state
      monad [M].
    - Objects are records; a method that mutates [self] returns the updated
      record. *)

From Stdlib Require Import ZArith Ascii String DecimalString.
From stdpp Require Import base option list strings gmap.

Set Warnings "-register-all".

Open Scope string_scope.
Open Scope Z_scope.
Open Scope list_scope.

(** ** Python values *)

Inductive stream := Stdin | Stdout | Stderr.

(** Objects with a [fileno] attribute: the interpreter's own three streams,
    a file the caller opened, or the parent's end of a child's pipe. *)
Inductive fileobj :=
| SysStdin
| SysStdout
| SysStderr
| UserFile (fd : nat)
| ChildPipe (pid : nat) (s : stream).

Inductive value :=
| VNone
| VInt (z : Z)
| VStr (s : string)
| VFile (f : fileobj)
| VObject (class_name : string).

#[global] Instance stream_eq_dec : EqDecision stream.
Proof. solve_decision. Defined.
#[global] Instance fileobj_eq_dec : EqDecision fileobj.
Proof. solve_decision. Defined.
#[global] Instance value_eq_dec : EqDecision value.
Proof. solve_decision. Defined.

(** Python's [==] on these values is structural equality. *)
Definition py_eq (a b : value) : bool := bool_decide (a = b).

(** [x in (a, b, ...)] *)
Definition py_in (x : value) (l : list value) : bool := existsb (py_eq x) l.

(** [hasattr(x, 'fileno')] *)
Definition has_fileno (x : value) : bool :=
  match x with VFile _ => true | _ => false end.

(** Module constants, lines 5-12. *)
Definition IGNORE := VInt (-1).
Definition CAPTURE := VInt (-2).
Definition INTERACT := VInt (-3).
Definition PIPE := VInt (-4).
Definition STDIN := VInt (-5).
Definition STDOUT := VInt (-6).
Definition STDERR := VInt (-7).
Definition _UNDEFINED := VInt (-8).

(** ** Exceptions and outcomes *)

(** The exception classes the module can meet.  [CalledProcessError] and
    [CalledProcessSignal] are the two classes declared by [spawn];
    [SubprocessCalledProcessError] is the library class they derive from.
    [Unmodelled] marks Python behaviour this embedding does not cover (a
    printf conversion outside [%s], [%d], [%i], [%%]). *)
Inductive exn_class :=
| AssertionError
| TypeError
| ValueError
| AttributeError
| NotImplementedError
| OSError
| TimeoutExpired
| SubprocessCalledProcessError
| CalledProcessError
| CalledProcessSignal
| Unmodelled.

#[global] Instance exn_class_eq_dec : EqDecision exn_class.
Proof. solve_decision. Defined.

Record exn := mk_exn { exn_type : exn_class; exn_msg : string }.

#[global] Instance exn_eq_dec : EqDecision exn.
Proof. solve_decision. Defined.

(** Direct base class, as the [class] statements of lines 14-21 and the
    library declare it. *)
Definition base_class (c : exn_class) : option exn_class :=
  match c with
  | CalledProcessSignal => Some CalledProcessError
  | CalledProcessError => Some SubprocessCalledProcessError
  | _ => None
  end.

(** [isinstance(e, c)]: the class chain has length at most two. *)
Definition isinstance (e : exn) (c : exn_class) : bool :=
  let t := exn_type e in
  bool_decide (t = c)
  || match base_class t with
     | Some b => bool_decide (b = c)
                 || match base_class b with
                    | Some b' => bool_decide (b' = c)
                    | None => false
                    end
     | None => false
     end.

(** Result of a call that has no effect on the world. *)
Inductive res (A : Type) :=
| Ok (a : A)
| Raise (e : exn).
Arguments Ok {A} a.
Arguments Raise {A} e.

Definition res_bind {A B} (m : res A) (k : A -> res B) : res B :=
  match m with
  | Ok a => k a
  | Raise e => Raise e
  end.

#[global] Instance res_ret : MRet res := fun _ a => Ok a.
#[global] Instance res_bind_inst : MBind res := fun _ _ k m => res_bind m k.
#[global] Instance res_fmap : FMap res := fun _ _ f m => res_bind m (fun a => Ok (f a)).

Definition raise {A} (c : exn_class) (msg : string) : res A :=
  Raise (mk_exn c msg).

(** [assert cond, msg] *)
Definition py_assert (cond : bool) (msg : string) : res unit :=
  if cond then Ok tt else raise AssertionError msg.

(** ** Strings *)

Definition ascii_eqb (a b : ascii) : bool := bool_decide (a = b).
Arguments ascii_eqb : simpl never.

(** [str.isspace] on the code points below 256. *)
Definition is_space (c : ascii) : bool :=
  let n := nat_of_ascii c in
  ((9 <=? n) && (n <=? 13))%nat || ((28 <=? n) && (n <=? 32))%nat
  || (n =? 133)%nat || (n =? 160)%nat.

Definition is_empty (s : string) : bool :=
  match s with EmptyString => true | _ => false end.

(** [str.split()] with no separator: runs of whitespace separate the
    tokens, and no token is empty.  [cur] is the token being read. *)
Fixpoint split_from (cur s : string) : list string :=
  match s with
  | EmptyString => if is_empty cur then [] else [cur]
  | String c s' =>
      if is_space c then
        if is_empty cur then split_from EmptyString s' else cur :: split_from EmptyString s'
      else split_from (cur +:+ String c EmptyString) s'
  end.

Definition split (s : string) : list string := split_from EmptyString s.

(** [s.startswith(sub)] *)
Fixpoint starts_with (sub s : string) : bool :=
  match sub, s with
  | EmptyString, _ => true
  | String _ _, EmptyString => false
  | String a sub', String b s' => ascii_eqb a b && starts_with sub' s'
  end.

(** [str.count(sub)]: occurrences of [sub], left to right and not
    overlapping.  [skip] characters of the last match are still to pass. *)
Fixpoint count_from (sub s : string) (skip : nat) : nat :=
  match s with
  | EmptyString => 0%nat
  | String _ s' =>
      match skip with
      | S k => count_from sub s' k
      | O =>
          if starts_with sub s
          then S (count_from sub s' (String.length sub - 1))
          else count_from sub s' 0
      end
  end.

Definition count (s sub : string) : nat :=
  if is_empty sub then S (String.length s) else count_from sub s 0.

(** [c in s] for a one-character [c]. *)
Fixpoint contains (c : ascii) (s : string) : bool :=
  match s with
  | EmptyString => false
  | String d s' => ascii_eqb c d || contains c s'
  end.

(** [s.rsplit(sep, 1)] for a one-character [sep]: cut at the last [sep]. *)
Fixpoint rsplit_last (sep : ascii) (s : string) : option (string * string) :=
  match s with
  | EmptyString => None
  | String c s' =>
      match rsplit_last sep s' with
      | Some (pre, post) => Some (String c pre, post)
      | None => if ascii_eqb c sep then Some (EmptyString, s') else None
      end
  end.

Definition rsplit1 (sep : ascii) (s : string) : list string :=
  match rsplit_last sep s with
  | Some (pre, post) => [pre; post]
  | None => [s]
  end.

(** The lines a binary file object yields when it is iterated: each line
    keeps its newline, and a last line without one is yielded too.  [cur] is
    the line being read. *)
Fixpoint lines_from (cur s : string) : list string :=
  match s with
  | EmptyString => if is_empty cur then [] else [cur]
  | String c s' =>
      if ascii_eqb c (ascii_of_nat 10)
      then (cur +:+ String c EmptyString) :: lines_from EmptyString s'
      else lines_from (cur +:+ String c EmptyString) s'
  end.

Definition readlines (s : string) : list string := lines_from EmptyString s.

(** ** Slices of the argument tuple *)

(** [args[:n]] *)
Definition slice_to {A} (args : list A) (n : Z) : list A :=
  if n <? 0
  then take (length args - Z.to_nat (- n)) args
  else take (Z.to_nat n) args.

(** [args[n:]] *)
Definition slice_from {A} (args : list A) (n : Z) : list A :=
  if n <? 0
  then drop (length args - Z.to_nat (- n)) args
  else drop (Z.to_nat n) args.

(** ** The [%] operator on strings *)

Definition Z_to_string (z : Z) : string := NilZero.string_of_int (Z.to_int z).

(** [str(v)] *)
Definition py_str (v : value) : res string :=
  match v with
  | VNone => Ok "None"
  | VInt z => Ok (Z_to_string z)
  | VStr s => Ok s
  | VFile _ => raise Unmodelled "repr of a file object"
  | VObject _ => raise Unmodelled "repr of an object"
  end.

(** Characters that start a conversion Python accepts and this embedding
    does not cover: flags, width, precision, length modifiers, mapping keys
    and the conversion types other than [s], [d] and [i]. *)
Definition other_conversion (c : ascii) : bool :=
  contains c "#0- +123456789*.hlL(ouxXeEfFgGcra".

(** [fmt % vals] for a tuple [vals]. *)
Fixpoint py_format (fmt : string) (vals : list value) : res string :=
  match fmt with
  | EmptyString =>
      match vals with
      | [] => Ok EmptyString
      | _ => raise TypeError "not all arguments converted during string formatting"
      end
  | String c rest =>
      if ascii_eqb c "%" then
        match rest with
        | EmptyString => raise ValueError "incomplete format"
        | String d rest' =>
            if ascii_eqb d "%" then
              (out ← py_format rest' vals; Ok (String "%" out))
            else if ascii_eqb d "s" then
              match vals with
              | [] => raise TypeError "not enough arguments for format string"
              | v :: vals' =>
                  (sv ← py_str v;
                   out ← py_format rest' vals';
                   Ok (sv +:+ out))
              end
            else if ascii_eqb d "d" || ascii_eqb d "i" then
              match vals with
              | [] => raise TypeError "not enough arguments for format string"
              | VInt z :: vals' =>
                  (out ← py_format rest' vals';
                   Ok (Z_to_string z +:+ out))
              | _ :: _ => raise TypeError "%d format: a real number is required"
              end
            else if other_conversion d then
              raise Unmodelled "printf conversion"
            else raise ValueError "unsupported format character"
        end
      else (out ← py_format rest vals; Ok (String c out))
  end.

(** ** [_spec_count] and [cmdline], lines 23-34 *)

Definition _spec_count (template : string) : Z :=
  Z.of_nat (count template "%") - 2 * Z.of_nat (count template "%%").

(** What a function hands back: a list of strings, or [None] when control
    falls off the end of the body. *)
Inductive pyret :=
| RetNone
| RetList (l : list string).

#[global] Instance pyret_eq_dec : EqDecision pyret.
Proof. solve_decision. Defined.

(** The [for i, part in enumerate(parts)] loop.  [todo] are the tokens still
    to visit, [i] the index of the first of them, [parts] the list being
    overwritten, [args] the values not yet consumed. *)
Fixpoint cmdline_loop (todo : list string) (i : nat) (parts : list string)
    (args : list value) : res (list string * list value) :=
  match todo with
  | [] => Ok (parts, args)
  | part :: todo' =>
      let spec_count := _spec_count part in
      let part_args := slice_to args spec_count in
      (s ← py_format part part_args;
       cmdline_loop todo' (S i) (<[i := s]> parts) (slice_from args spec_count))
  end.

Definition cmdline (template : string) (args : list value) : res pyret :=
  let parts := split template in
  match args with
  | [] => Ok (RetList parts)
  | _ :: _ =>
      (_ ← cmdline_loop parts 0 parts args;
       Ok RetNone)
  end.

(** ** The interpreter and the operating system

    [subprocess.Popen] and [threading.Thread] are library code.  What they
    answer is decided by the environment [Env], an arbitrary function of the
    history of calls made so far; the module's own logic is what is
    embedded. *)

Inductive outcome (A : Type) :=
| Ret (a : A)
| Throw (e : exn)
| Hang.
Arguments Ret {A} a.
Arguments Throw {A} e.
Arguments Hang {A}.

(** What [Popen] accepts for [stdin=], [stdout=], [stderr=]. *)
Inductive pstream :=
| SUBPROCESS_PIPE
| SUBPROCESS_DEVNULL
| PFile (f : fileobj).

Record SpawnReq := mk_req {
  req_args : pyret;
  req_stdin : pstream;
  req_stdout : pstream;
  req_stderr : pstream;
  req_kwargs : gmap string value
}.

(** Thread targets the module creates: the bound method [f.write] of a file
    object, and the two [capture] closures of [Process.start], which read a
    child's stream to its end and store it in the process object. *)
Inductive callable :=
| BoundWrite (f : value)
| CaptureClosure (pid : nat) (s : stream).

Record Thread := mk_thread {
  th_id : nat;
  th_name : string;
  th_daemon : bool;
  th_target : callable;
  th_args : list value
}.



Inductive os_call :=
| CallPopen (r : SpawnReq)
| CallPoll (pid : nat)
| CallWait (pid : nat) (timeout : value)
| CallSendSignal (pid : nat) (sig : value)
| CallTerminate (pid : nat)
| CallKill (pid : nat)
| CallThreadStart (t : Thread)
| CallJoin (tid : nat).

Record Env := mk_env {
  (** [Popen(...)] raising instead of returning a handle *)
  env_spawn : list os_call -> SpawnReq -> option exn;
  (** the exit status the operating system reports for a child, if any *)
  env_poll : list os_call -> nat -> option Z;
  (** [Popen.wait(timeout)] on a child with no exit status recorded *)
  env_wait : list os_call -> nat -> value -> outcome Z;
  (** [Thread.join()] *)
  env_join : list os_call -> nat -> outcome unit;
  (** everything a child writes to one of its streams *)
  env_read : nat -> stream -> string
}.

(** A [Popen] object; its identity is its index in [w_popens]. *)
Record Popen := mk_popen {
  po_req : SpawnReq;
  po_returncode : option Z
}.

Record World := mk_world {
  w_env : Env;
  w_log : list os_call;      (* newest first *)
  w_popens : list Popen;
  w_nthreads : nat
}.

Definition M (A : Type) : Type := World -> outcome A * World.

Definition m_ret {A} (a : A) : M A := fun w => (Ret a, w).

Definition m_bind {A B} (m : M A) (k : A -> M B) : M B :=
  fun w =>
    match m w with
    | (Ret a, w') => k a w'
    | (Throw e, w') => (Throw e, w')
    | (Hang, w') => (Hang, w')
    end.

#[global] Instance M_ret : MRet M := fun _ a => m_ret a.
#[global] Instance M_bind : MBind M := fun _ _ k m => m_bind m k.
#[global] Instance M_fmap : FMap M := fun _ _ f m => m_bind m (fun a => m_ret (f a)).

Definition throw {A} (c : exn_class) (msg : string) : M A :=
  fun w => (Throw (mk_exn c msg), w).

(** A pure computation inside a stateful one. *)
Definition lift {A} (r : res A) : M A :=
  fun w => match r with Ok a => (Ret a, w) | Raise e => (Throw e, w) end.

Definition log (c : os_call) : M unit :=
  fun w => (Ret tt, mk_world (w_env w) (c :: w_log w) (w_popens w) (w_nthreads w)).

Definition set_returncode (pid : nat) (rc : Z) : M unit :=
  fun w =>
    (Ret tt,
     mk_world (w_env w) (w_log w)
       (alter (fun p => mk_popen (po_req p) (Some rc)) pid (w_popens w))
       (w_nthreads w)).

(** The attribute [returncode] of a [Popen] object. *)
Definition popen_returncode (pid : nat) : M value :=
  fun w =>
    match w_popens w !! pid with
    | Some p =>
        (Ret (match po_returncode p with Some rc => VInt rc | None => VNone end), w)
    | None => (Throw (mk_exn Unmodelled "no such Popen object"), w)
    end.

(** The attributes [stdin], [stdout], [stderr] of a [Popen] object: a pipe
    end where [subprocess.PIPE] was asked for, [None] otherwise. *)
Definition popen_stream (pid : nat) (s : stream) : M value :=
  fun w =>
    match w_popens w !! pid with
    | Some p =>
        let h := match s with
                 | Stdin => req_stdin (po_req p)
                 | Stdout => req_stdout (po_req p)
                 | Stderr => req_stderr (po_req p)
                 end in
        (Ret (match h with
              | SUBPROCESS_PIPE => VFile (ChildPipe pid s)
              | _ => VNone
              end), w)
    | None => (Throw (mk_exn Unmodelled "no such Popen object"), w)
    end.

(** [subprocess.Popen(args, stdin=, stdout=, stderr=, **kwargs)] *)
Definition popen_new (r : SpawnReq) : M nat :=
  fun w =>
    let w1 := mk_world (w_env w) (CallPopen r :: w_log w) (w_popens w) (w_nthreads w) in
    match env_spawn (w_env w) (w_log w) r with
    | Some e => (Throw e, w1)
    | None =>
        (Ret (length (w_popens w)),
         mk_world (w_env w) (CallPopen r :: w_log w)
           (w_popens w ++ [mk_popen r None]) (w_nthreads w))
    end.

(** The operating system's word on a child, with the call logged. *)
Definition os_poll (pid : nat) : M (option Z) :=
  fun w =>
    (Ret (env_poll (w_env w) (w_log w) pid),
     mk_world (w_env w) (CallPoll pid :: w_log w) (w_popens w) (w_nthreads w)).

Definition os_wait (pid : nat) (timeout : value) : M Z :=
  fun w =>
    (env_wait (w_env w) (w_log w) pid timeout,
     mk_world (w_env w) (CallWait pid timeout :: w_log w) (w_popens w) (w_nthreads w)).

(** [Popen.poll()]: a recorded exit status is returned as it is; otherwise
    the operating system is asked and its answer recorded. *)
Definition popen_poll (pid : nat) : M value :=
  rc ← popen_returncode pid;
  match rc with
  | VNone =>
      st ← os_poll pid;
      match st with
      | Some z => _ ← set_returncode pid z; mret (VInt z)
      | None => mret VNone
      end
  | _ => mret rc
  end.

(** [Popen.wait(timeout)] *)
Definition popen_wait (pid : nat) (timeout : value) : M value :=
  rc ← popen_returncode pid;
  match rc with
  | VNone =>
      z ← os_wait pid timeout;
      _ ← set_returncode pid z;
      mret (VInt z)
  | _ => mret rc
  end.

(** Python's argument binding for the three signal methods of [Popen]:
    [send_signal(self, sig)], [terminate(self)], [kill(self)]. *)
Definition popen_send_signal (pid : nat) (args : list value) : M unit :=
  match args with
  | [sig] => log (CallSendSignal pid sig)
  | _ => throw TypeError "send_signal() takes 2 positional arguments"
  end.

Definition popen_terminate (pid : nat) (args : list value) : M unit :=
  match args with
  | [] => log (CallTerminate pid)
  | _ => throw TypeError "terminate() takes 1 positional argument"
  end.

Definition popen_kill (pid : nat) (args : list value) : M unit :=
  match args with
  | [] => log (CallKill pid)
  | _ => throw TypeError "kill() takes 1 positional argument"
  end.

(** [threading.Thread(target=fn, name=name, args=args)], then
    [thread.daemon = True] and [thread.start()]. *)
Definition thread_spawn (name : string) (fn : callable) (args : list value) : M Thread :=
  fun w =>
    let t := mk_thread (w_nthreads w) name true fn args in
    (Ret t, mk_world (w_env w) (CallThreadStart t :: w_log w) (w_popens w) (S (w_nthreads w))).

(** [thread.join()] *)
Definition thread_join (t : Thread) : M unit :=
  fun w =>
    let w1 := mk_world (w_env w) (CallJoin (th_id t) :: w_log w) (w_popens w) (w_nthreads w) in
    match env_join (w_env w) (w_log w) (th_id t) with
    | Ret _ => (Ret tt, w1)
    | Throw e => (Throw e, w1)
    | Hang => (Hang, w1)
    end.

(** The completion record, [CompletedProcess] (lines 14-15): the library's
    record, nothing overridden. *)
Record CompletedProcess := mk_completed {
  cp_args : pyret;
  cp_returncode : value;
  cp_stdout : value;
  cp_stderr : value
}.

(** [bool(x)] *)
Definition truthy (v : value) : bool :=
  match v with
  | VNone => false
  | VInt z => negb (z =? 0)
  | VStr s => negb (is_empty s)
  | VFile _ | VObject _ => true
  end.

(** [CompletedProcess.check_returncode], inherited unchanged from
    [subprocess.CompletedProcess] since the class body of line 15 is [pass]:
    the library raises its own [CalledProcessError] when the return code is
    truthy. *)
Definition check_returncode (self : CompletedProcess) : res unit :=
  if truthy (cp_returncode self)
  then raise SubprocessCalledProcessError "returned non-zero exit status"
  else Ok tt.

(** A keyword of a call that names a parameter the call has already bound
    by position: [self] and [cmd], the two positional parameters of
    [Process.__init__], [Pipe.__init__] and [Runnable.pipe].  Python refuses
    such a call with [TypeError] before the body runs. *)
Definition rebinds_positional (kw : gmap string value) : bool :=
  bool_decide (is_Some (kw !! "self")) || bool_decide (is_Some (kw !! "cmd")).

(** ** [Process], lines 93-218 *)

Module Process.

Record t := mk {
  _cmd : string;
  _args : list value;
  _cmdline : pyret;
  _stdin : value;
  _stdout : value;
  _stderr : value;
  _kwargs : gmap string value;
  _popen : option nat;
  _threads : list Thread;
  _captured_stdout : value;
  _captured_stderr : value;
  _init_pipe : bool;
  _pipe : value;
  _input : value;
  _output : value
}.

Definition set_stdin (v : value) (p : t) : t :=
  mk (_cmd p) (_args p) (_cmdline p) v (_stdout p) (_stderr p) (_kwargs p)
     (_popen p) (_threads p) (_captured_stdout p) (_captured_stderr p)
     (_init_pipe p) (_pipe p) (_input p) (_output p).
Definition set_stdout (v : value) (p : t) : t :=
  mk (_cmd p) (_args p) (_cmdline p) (_stdin p) v (_stderr p) (_kwargs p)
     (_popen p) (_threads p) (_captured_stdout p) (_captured_stderr p)
     (_init_pipe p) (_pipe p) (_input p) (_output p).
Definition set_popen (v : option nat) (p : t) : t :=
  mk (_cmd p) (_args p) (_cmdline p) (_stdin p) (_stdout p) (_stderr p) (_kwargs p)
     v (_threads p) (_captured_stdout p) (_captured_stderr p)
     (_init_pipe p) (_pipe p) (_input p) (_output p).
Definition set_threads (v : list Thread) (p : t) : t :=
  mk (_cmd p) (_args p) (_cmdline p) (_stdin p) (_stdout p) (_stderr p) (_kwargs p)
     (_popen p) v (_captured_stdout p) (_captured_stderr p)
     (_init_pipe p) (_pipe p) (_input p) (_output p).
Definition set_captured_stdout (v : value) (p : t) : t :=
  mk (_cmd p) (_args p) (_cmdline p) (_stdin p) (_stdout p) (_stderr p) (_kwargs p)
     (_popen p) (_threads p) v (_captured_stderr p)
     (_init_pipe p) (_pipe p) (_input p) (_output p).
Definition set_captured_stderr (v : value) (p : t) : t :=
  mk (_cmd p) (_args p) (_cmdline p) (_stdin p) (_stdout p) (_stderr p) (_kwargs p)
     (_popen p) (_threads p) (_captured_stdout p) v
     (_init_pipe p) (_pipe p) (_input p) (_output p).
Definition set_init_pipe (v : bool) (p : t) : t :=
  mk (_cmd p) (_args p) (_cmdline p) (_stdin p) (_stdout p) (_stderr p) (_kwargs p)
     (_popen p) (_threads p) (_captured_stdout p) (_captured_stderr p)
     v (_pipe p) (_input p) (_output p).
Definition set_pipe (v : value) (p : t) : t :=
  mk (_cmd p) (_args p) (_cmdline p) (_stdin p) (_stdout p) (_stderr p) (_kwargs p)
     (_popen p) (_threads p) (_captured_stdout p) (_captured_stderr p)
     (_init_pipe p) v (_input p) (_output p).
Definition set_input (v : value) (p : t) : t :=
  mk (_cmd p) (_args p) (_cmdline p) (_stdin p) (_stdout p) (_stderr p) (_kwargs p)
     (_popen p) (_threads p) (_captured_stdout p) (_captured_stderr p)
     (_init_pipe p) (_pipe p) v (_output p).
Definition set_output (v : value) (p : t) : t :=
  mk (_cmd p) (_args p) (_cmdline p) (_stdin p) (_stdout p) (_stderr p) (_kwargs p)
     (_popen p) (_threads p) (_captured_stdout p) (_captured_stderr p)
     (_init_pipe p) (_pipe p) (_input p) v.

(** Lines 127-128: the three names are looked up in [self._kwargs];
    [dict.get] answers [None] for a missing key. *)
Definition _interactive_count (self : t) : Z :=
  Z.of_nat
    (length
       (filter (fun arg => py_eq (default VNone (_kwargs self !! arg)) INTERACT = true)
          ["stdout"; "stderr"; "stdin"])).

(** [Runnable.__init__] (lines 37-41) on a process. *)
Definition Runnable__init__ (self : t) : res t :=
  let self := set_output VNone (set_input VNone (set_pipe VNone self)) in
  _ ← py_assert (_interactive_count self <=? 1)
        "more than one interactive stream, this causes deadlocks";
  Ok self.

(** Lines 94-116, after argument binding: [stdin], [stdout], [stderr] are
    the keyword-only parameters and [kwargs] the remaining keywords. *)
Definition __init__ (cmd : string) (args : list value)
    (stdin stdout stderr : value) (kwargs : gmap string value) : res t :=
  cl ← cmdline cmd args;
  _ ← py_assert (py_in stdin [_UNDEFINED; STDIN; INTERACT] || has_fileno stdin)
        EmptyString;
  _ ← py_assert (negb (py_in stdout [STDIN; VNone])) EmptyString;
  _ ← py_assert (negb (py_in stderr [STDIN; VNone])) EmptyString;
  _ ← py_assert (negb (py_eq stdout PIPE && py_eq stderr PIPE)) EmptyString;
  Runnable__init__
    (mk cmd args cl stdin stdout stderr kwargs None [] VNone VNone false
        VNone VNone VNone).

(** The binding of the keywords of [Process(cmd, *args, **kw)], once Python
    has accepted them (none of them named [self] or [cmd], see [call]): the
    keywords [stdin], [stdout] and [stderr] go to the parameters of those
    names and every other keyword is collected in [kwargs]. *)
Definition new (cmd : string) (args : list value) (kw : gmap string value) : res t :=
  __init__ cmd args
    (default _UNDEFINED (kw !! "stdin"))
    (default _UNDEFINED (kw !! "stdout"))
    (default _UNDEFINED (kw !! "stderr"))
    (delete "stdin" (delete "stdout" (delete "stderr" kw))).

(** The call [Process(cmd, *args, **kw)] with any keywords. *)
Definition call (cmd : string) (args : list value) (kw : gmap string value) : res t :=
  if rebinds_positional kw
  then raise TypeError "got multiple values for argument"
  else new cmd args kw.

(** Lines 130-134. *)
Definition _prepare_pipe (self : t) : res t :=
  let self := set_init_pipe true self in
  if negb (py_eq (_stdout self) PIPE) && negb (py_eq (_stderr self) PIPE) then
    _ ← py_assert (py_eq (_stdout self) _UNDEFINED) EmptyString;
    Ok (set_stdout PIPE self)
  else Ok self.

(** Lines 136-140. *)
Definition _parallel (self : t) (fn : callable) (args : list value) : M t :=
  thread ← thread_spawn "spawn_aux" fn args;
  mret (set_threads (_threads self ++ [thread]) self).

(** Lines 142-159. *)
Definition _out_handle (v : value) (default : pstream) (is_pipe : bool) : res pstream :=
  if py_eq v IGNORE then Ok SUBPROCESS_DEVNULL
  else if py_in v [CAPTURE; INTERACT] then Ok SUBPROCESS_PIPE
  else if py_eq v PIPE then
    _ ← py_assert is_pipe EmptyString; Ok SUBPROCESS_PIPE
  else if py_eq v _UNDEFINED then Ok default
  else if py_eq v STDOUT then Ok (PFile SysStdout)
  else if py_eq v STDERR then Ok (PFile SysStderr)
  else match v with
       | VFile f => Ok (PFile f)
       | _ => raise AssertionError "value"
       end.

(** The stdin handle chosen by lines 164-173. *)
Definition stdin_handle (self : t) (input : value) : res pstream :=
  if negb (py_eq input VNone) || py_eq (_stdin self) INTERACT then
    _ ← py_assert (py_in (_stdin self) [_UNDEFINED; INTERACT]) EmptyString;
    Ok SUBPROCESS_PIPE
  else if py_eq (_stdin self) IGNORE then Ok SUBPROCESS_DEVNULL
  else if py_in (_stdin self) [STDIN; _UNDEFINED] then Ok (PFile SysStdin)
  else match _stdin self with
       | VFile f => Ok (PFile f)
       | _ => raise AssertionError "self._stdin"
       end.

(** [obj.write] for a file object or [None]. *)
Definition bound_write (f : value) : M callable :=
  match f with
  | VFile _ => mret (BoundWrite f)
  | _ => throw AttributeError "'NoneType' object has no attribute 'write'"
  end.

(** Lines 181-191: the handles the started process exposes.  [p_in],
    [p_out], [p_err] are the attributes [stdin], [stdout], [stderr] of
    [self._popen]. *)
Definition expose (self : t) (p_in p_out p_err : value) : t :=
  let self :=
    if py_eq (_stdin self) INTERACT then set_input p_in self
    else if py_eq (_stdout self) INTERACT then set_output p_out self
    else if py_eq (_stderr self) INTERACT then set_output p_err self
    else self in
  if _init_pipe self then
    if py_eq (_stdout self) PIPE then set_pipe p_out self
    else if py_eq (_stderr self) PIPE then set_pipe p_err self
    else self
  else self.

(** Lines 193-202: the background threads. *)
Definition launch (self : t) (pid : nat) (input p_in : value) : M t :=
  self ← (if negb (py_eq input VNone)
          then fn ← bound_write p_in; _parallel self fn [input]
          else mret self);
  self ← (if py_eq (_stdout self) CAPTURE
          then _parallel self (CaptureClosure pid Stdout) []
          else mret self);
  if py_eq (_stderr self) CAPTURE
  then _parallel self (CaptureClosure pid Stderr) []
  else mret self.

(** Lines 161-202. *)
Definition start (self : t) (input : value) : M t :=
  _ ← lift (py_assert (negb (bool_decide (is_Some (_popen self)))) "already inited");
  pstdin ← lift (stdin_handle self input);
  pstdout ← lift (_out_handle (_stdout self) (PFile SysStdout) (_init_pipe self));
  pstderr ← lift (_out_handle (_stderr self) (PFile SysStderr) (_init_pipe self));
  pid ← popen_new (mk_req (_cmdline self) pstdin pstdout pstderr (_kwargs self));
  let self := set_popen (Some pid) self in
  p_in ← popen_stream pid Stdin;
  p_out ← popen_stream pid Stdout;
  p_err ← popen_stream pid Stderr;
  launch (expose self p_in p_out p_err) pid input p_in.

(** [self._popen.<method>]: an attribute of [None] does not exist. *)
Definition the_popen (self : t) (method : string) : M nat :=
  match _popen self with
  | Some pid => mret pid
  | None => throw AttributeError method
  end.

(** Lines 118-125. *)
Definition send_signal (self : t) (signal : value) : M unit :=
  pid ← the_popen self "send_signal";
  popen_send_signal pid [VObject "Process"; signal].

Definition terminate (self : t) : M unit :=
  pid ← the_popen self "terminate";
  popen_terminate pid [].

Definition kill (self : t) : M unit :=
  pid ← the_popen self "kill";
  popen_kill pid [].

(** Lines 204-205. *)
Definition poll (self : t) : M value :=
  pid ← the_popen self "poll";
  popen_poll pid.

(** A joined thread has run to its end; a [capture] closure has by then
    stored what it read in the process object. *)
Definition thread_effect (th : Thread) (self : t) : M t :=
  fun w =>
    (Ret match th_target th with
         | CaptureClosure pid Stdout =>
             set_captured_stdout (VStr (env_read (w_env w) pid Stdout)) self
         | CaptureClosure pid Stderr =>
             set_captured_stderr (VStr (env_read (w_env w) pid Stderr)) self
         | _ => self
         end, w).

(** [for thread in self._threads: thread.join()] *)
Fixpoint join_all (ts : list Thread) (self : t) : M t :=
  match ts with
  | [] => mret self
  | th :: ts' =>
      _ ← thread_join th;
      self ← thread_effect th self;
      join_all ts' self
  end.

(** Lines 207-214.  The parameter [timeout] has no default: [None] stands
    for a call that leaves it out. *)
Definition wait (self : t) (timeout : option value) : M (t * CompletedProcess) :=
  match timeout with
  | None => throw TypeError "wait() missing 1 required positional argument: 'timeout'"
  | Some timeout =>
      pid ← the_popen self "wait";
      _ ← popen_wait pid timeout;
      self ← join_all (_threads self) self;
      rc ← popen_returncode pid;
      mret (self,
            mk_completed (_cmdline self) rc (_captured_stdout self) (_captured_stderr self))
  end.

(** Lines 216-218. *)
Definition parts (self : t) : list t := [self].

End Process.

(** ** [Pipe], lines 220-277, and the runnables *)

Module Pipe.

Record fields (R : Type) := mk {
  _preceding : R;
  _process : Process.t;
  _parts : value;
  _pipe : value;
  _input : value;
  _output : value
}.
Arguments mk {R}.
Arguments _preceding {R}.
Arguments _process {R}.
Arguments _parts {R}.
Arguments _pipe {R}.
Arguments _input {R}.
Arguments _output {R}.

(** The two subclasses of [Runnable]. *)
Inductive runnable :=
| RProcess (p : Process.t)
| RPipe (q : fields runnable).

Definition t := fields runnable.

(** The attributes [_pipe], [_input], [_output] of either subclass. *)
Definition pipe_of (r : runnable) : value :=
  match r with RProcess p => Process._pipe p | RPipe q => _pipe q end.
Definition input_of (r : runnable) : value :=
  match r with RProcess p => Process._input p | RPipe q => _input q end.
Definition output_of (r : runnable) : value :=
  match r with RProcess p => Process._output p | RPipe q => _output q end.

(** [r._interactive_count()], lines 258-259 for a pipe. *)
Fixpoint _interactive_count_of (r : runnable) : Z :=
  match r with
  | RProcess p => Process._interactive_count p
  | RPipe q =>
      _interactive_count_of (_preceding q)
      + Process._interactive_count (_process q)
  end.

Definition _interactive_count (self : t) : Z :=
  _interactive_count_of (RPipe self).

(** [r._prepare_pipe()], lines 261-262 for a pipe. *)
Definition _prepare_pipe (self : t) : res t :=
  p ← Process._prepare_pipe (_process self);
  Ok (mk (_preceding self) p (_parts self) (_pipe self) (_input self) (_output self)).

Definition _prepare_pipe_of (r : runnable) : res runnable :=
  match r with
  | RProcess p => RProcess <$> Process._prepare_pipe p
  | RPipe q => RPipe <$> _prepare_pipe q
  end.

(** [Runnable.__init__] (lines 37-41) on a pipe. *)
Definition Runnable__init__ (self : t) : res t :=
  let self := mk (_preceding self) (_process self) (_parts self) VNone VNone VNone in
  _ ← py_assert (_interactive_count self <=? 1)
        "more than one interactive stream, this causes deadlocks";
  Ok self.

(** Lines 221-251, after argument binding.  The constructor calls itself
    on the text before the last bar, which is shorter than [cmd]; [fuel]
    bounds the depth of these calls. *)
Fixpoint init_fuel (fuel : nat) (cmd : string) (args : list value)
    (_preceding : option runnable) (stdin stdout stderr : value)
    (kwargs : gmap string value) : res t :=
  match fuel with
  | O => raise Unmodelled "constructor depth"
  | S fuel' =>
      '(_preceding, cmd, args) ←
        match _preceding with
        | None =>
            _ ← py_assert (contains "|" cmd) "not a pipe";
            match rsplit1 "|" cmd with
            | [preceding_cmd; cmd] =>
                let spec_count := _spec_count preceding_cmd in
                let preceding_args := slice_to args spec_count in
                let args := slice_from args spec_count in
                _preceding ←
                  (if contains "|" preceding_cmd
                   then RPipe <$> init_fuel fuel' preceding_cmd preceding_args None
                                    stdin _UNDEFINED stderr kwargs
                   else RProcess <$> Process.__init__ preceding_cmd preceding_args
                                       stdin _UNDEFINED stderr kwargs);
                _preceding ← _prepare_pipe_of _preceding;
                Ok (_preceding, cmd, args)
            | _ => raise ValueError "not enough values to unpack"
            end
        | Some _preceding =>
            _ ← py_assert (py_eq stdin _UNDEFINED) EmptyString;
            Ok (_preceding, cmd, args)
        end;
      process ← Process.__init__ cmd args _UNDEFINED stdout stderr kwargs;
      Runnable__init__ (mk _preceding process VNone VNone VNone VNone)
  end.

Definition __init__ (cmd : string) (args : list value)
    (_preceding : option runnable) (stdin stdout stderr : value)
    (kwargs : gmap string value) : res t :=
  init_fuel (S (String.length cmd)) cmd args _preceding stdin stdout stderr kwargs.

(** The binding of the keywords of [Pipe(cmd, *args, _preceding=p, **kw)],
    once Python has accepted them (none of them named [self] or [cmd], see
    [call]). *)
Definition new (cmd : string) (args : list value) (_preceding : option runnable)
    (kw : gmap string value) : res t :=
  __init__ cmd args _preceding
    (default _UNDEFINED (kw !! "stdin"))
    (default _UNDEFINED (kw !! "stdout"))
    (default _UNDEFINED (kw !! "stderr"))
    (delete "stdin" (delete "stdout" (delete "stderr" kw))).

(** The call [Pipe(cmd, *args, _preceding=p, **kw)] with any keywords. *)
Definition call (cmd : string) (args : list value) (_preceding : option runnable)
    (kw : gmap string value) : res t :=
  if rebinds_positional kw
  then raise TypeError "got multiple values for argument"
  else new cmd args _preceding kw.

(** [r.start(input)]: [Process.start] for a process, lines 264-271 for a
    pipe. *)
Fixpoint start_of (r : runnable) (input : value) : M runnable :=
  match r with
  | RProcess p => RProcess <$> Process.start p input
  | RPipe self =>
      preceding ← start_of (_preceding self) input;
      _ ← lift (py_assert (truthy (pipe_of preceding)) EmptyString);
      process ← Process.start (Process.set_stdin (pipe_of preceding) (_process self)) VNone;
      mret (RPipe (mk preceding process (_parts self)
                      (Process._pipe process) (input_of preceding)
                      (Process._output process)))
  end.

Definition start (self : t) (input : value) : M runnable := start_of (RPipe self) input.

(** Lines 273-274. *)
Definition poll (self : t) : M value := Process.poll (_process self).

(** Lines 276-277: [timeout] defaults to [None]. *)
Definition wait (self : t) (timeout : option value) : M (t * CompletedProcess) :=
  let timeout := default VNone timeout in
  '(process, completed) ← Process.wait (_process self) (Some timeout);
  mret (mk (_preceding self) process (_parts self) (_pipe self) (_input self) (_output self),
        completed).

(** Lines 253-256. *)
Definition parts (self : t) : res value :=
  _ ← py_assert (truthy (_parts self)) "not inited";
  Ok (_parts self).

End Pipe.

Abbreviation runnable := Pipe.runnable.
Abbreviation RProcess := Pipe.RProcess.
Abbreviation RPipe := Pipe.RPipe.

(** ** [Runnable], lines 36-90: the methods shared by both subclasses *)

Module Runnable.

(** Method dispatch on the class of [self]. *)
Definition start (self : runnable) (input : value) : M runnable :=
  Pipe.start_of self input.

Definition poll (self : runnable) : M value :=
  match self with
  | RProcess p => Process.poll p
  | RPipe q => Pipe.poll q
  end.

Definition wait (self : runnable) (timeout : option value)
    : M (runnable * CompletedProcess) :=
  match self with
  | RProcess p => '(p, c) ← Process.wait p timeout; mret (RProcess p, c)
  | RPipe q => '(q, c) ← Pipe.wait q timeout; mret (RPipe q, c)
  end.

Definition _interactive_count (self : runnable) : Z :=
  Pipe._interactive_count_of self.

(** Lines 44-46; [kw] are the keywords of the call, once Python has
    accepted them (none of them named [self] or [cmd], see [call_pipe]). *)
Definition pipe (self : runnable) (cmd : string) (args : list value)
    (kw : gmap string value) : res runnable :=
  self ← Pipe._prepare_pipe_of self;
  match kw !! "_preceding" with
  | Some _ => raise TypeError "got multiple values for keyword argument '_preceding'"
  | None => RPipe <$> Pipe.new cmd args (Some self) kw
  end.

(** The call [self.pipe(cmd, *args, **kw)] with any keywords: a refused
    call has not run the body, so [self] has not been prepared. *)
Definition call_pipe (self : runnable) (cmd : string) (args : list value)
    (kw : gmap string value) : res runnable :=
  if rebinds_positional kw
  then raise TypeError "got multiple values for argument"
  else pipe self cmd args kw.

(** Lines 49-51. *)
Definition run (self : runnable) (input : value) (timeout : value)
    : M (runnable * CompletedProcess) :=
  self ← start self VNone;
  wait self (Some timeout).

(** Lines 73-75 and 81-83. *)
Definition input (self : runnable) : value := Pipe.input_of self.
Definition output (self : runnable) : value := Pipe.output_of self.

(** A call made on a file object by [send]. *)
Inductive handle_call :=
| HWrite (f : fileobj) (data : value)
| HFlush (f : fileobj).

(** Lines 77-79: the calls [send] makes on [self._input], which has the
    methods [write] and [flush] only when it is a file object. *)
Definition send (self : runnable) (data : value) : res (list handle_call) :=
  match input self with
  | VFile f => Ok [HWrite f data; HFlush f]
  | _ => raise AttributeError "write"
  end.

(** A generator once its consumer has taken everything from it: the values
    it yielded, and how it ended ([Ret] for a normal end). *)
Record Exhausted := mk_exhausted {
  yielded : list value;
  ending : outcome unit
}.

(** Lines 53-60, run to exhaustion.  The lines of [self.output] are those
    of everything the child writes to that stream. *)
Definition iterate (self : runnable) (input timeout : value)
    : World -> Exhausted * World :=
  fun w =>
    if negb (py_eq timeout VNone)
    then (mk_exhausted [] (Throw (mk_exn AssertionError "not implemented")), w)
    else
      match start self VNone w with
      | (Ret self, w1) =>
          if negb (truthy (output self))
          then (mk_exhausted [] (Throw (mk_exn AssertionError EmptyString)), w1)
          else
            match output self with
            | VFile (ChildPipe pid s) =>
                let lines := VStr <$> readlines (env_read (w_env w1) pid s) in
                match wait self None w1 with
                | (Ret (_, res), w2) =>
                    (mk_exhausted lines
                       match check_returncode res with
                       | Ok _ => Ret tt
                       | Raise e => Throw e
                       end, w2)
                | (Throw e, w2) => (mk_exhausted lines (Throw e), w2)
                | (Hang, w2) => (mk_exhausted lines Hang, w2)
                end
            | _ => (mk_exhausted [] (Throw (mk_exn Unmodelled "iterated object")), w1)
            end
      | (Throw e, w1) => (mk_exhausted [] (Throw e), w1)
      | (Hang, w1) => (mk_exhausted [] Hang, w1)
      end.

End Runnable.

(** ** Concrete worlds and objects used in the examples *)

(** An environment in which every spawn succeeds, the child with identity
    [0] exits with status [1] and every other child with status [0], every
    thread finishes, and every child prints [out]. *)
Definition demo_env : Env :=
  mk_env (fun _ _ => None)
         (fun _ pid => Some (if Nat.eqb pid 0 then 1 else 0))
         (fun _ pid _ => Ret (if Nat.eqb pid 0 then 1 else 0))
         (fun _ _ => Ret tt)
         (fun _ _ => "out").

Definition world0 : World := mk_world demo_env [] [] 0.

(** [Process('cat')] as the constructor leaves it. *)
Definition cat_process : Process.t :=
  Process.mk "cat" [] (RetList ["cat"]) _UNDEFINED _UNDEFINED _UNDEFINED ∅
             None [] VNone VNone false VNone VNone VNone.

(** [cat_process] once started: the child has identity [0]. *)
Definition cat_started : Process.t := Process.set_popen (Some 0%nat) cat_process.

(** Keywords [stdin=INTERACT, stdout=INTERACT]. *)
Definition kw_two_interactive : gmap string value :=
  <["stdin" := INTERACT]> (<["stdout" := INTERACT]> ∅).

(** Keyword [stderr=PIPE]. *)
Definition kw_stderr_pipe : gmap string value := <["stderr" := PIPE]> ∅.

(** The processes of a runnable, in the order of the command line. *)
Fixpoint stages (r : runnable) : list Process.t :=
  match r with
  | RProcess p => [p]
  | RPipe q => stages (Pipe._preceding q) ++ [Pipe._process q]
  end.

(** [run] in the words of its description: [start()] with no argument,
    then [wait(timeout)], whose completion record is the result. *)
Definition run_spec (self : runnable) (timeout : value)
    : M (runnable * CompletedProcess) :=
  fun w =>
    match Runnable.start self VNone w with
    | (Ret started, w') => Runnable.wait started (Some timeout) w'
    | (Throw e, w') => (Throw e, w')
    | (Hang, w') => (Hang, w')
    end.

(** ** Notions used in the statements *)

(** Two worlds that tell the same story about the child [pid]: same
    environment, same history, same [Popen] object for [pid].  The [Popen]
    objects of other children, such as their recorded exit status, may
    differ. *)
Definition same_child (pid : nat) (w1 w2 : World) : Prop :=
  w_env w1 = w_env w2 /\ w_log w1 = w_log w2
  /\ w_popens w1 !! pid = w_popens w2 !! pid.

(** A computation that looks at no child but [pid]. *)
Definition only_child (pid : nat) {A} (m : M A) : Prop :=
  forall w1 w2, same_child pid w1 w2 ->
    fst (m w1) = fst (m w2) /\ same_child pid (snd (m w1)) (snd (m w2)).

(** The completion record in the result of a [wait]. *)
Definition completion {A} (r : outcome (A * CompletedProcess) * World)
    : outcome CompletedProcess :=
  match fst r with
  | Ret (_, c) => Ret c
  | Throw e => Throw e
  | Hang => Hang
  end.


(** No process of the runnable has a stream name among its spawn options:
    what Python's binding of keyword-only parameters guarantees. *)
Definition no_stream_keywords (r : runnable) : Prop :=
  forall p s, p ∈ stages r -> s = "stdin" \/ s = "stdout" \/ s = "stderr" ->
    Process._kwargs p !! s = None.

(** [Pipe('a | b | c')] with no keyword, started in [world0]. *)
Definition abc_started : outcome runnable * World :=
  match Pipe.new "a | b | c" [] None ∅ with
  | Ok q => Pipe.start q VNone world0
  | Raise e => (Throw e, world0)
  end.




(** ['|'.join(l)] *)
Fixpoint join_bar (l : list string) : string :=
  match l with
  | [] => EmptyString
  | [x] => x
  | x :: l' => x +:+ String "|" (join_bar l')
  end.

(** The attribute of a [Popen] object for a stream opened with handle [h]. *)
Definition pipe_value (pid : nat) (s : stream) (h : pstream) : value :=
  match h with
  | SUBPROCESS_PIPE => VFile (ChildPipe pid s)
  | _ => VNone
  end.

(** Targets and arguments of the threads [Process.start] starts for the
    child [pid], in the order it starts them. *)
Definition launched (self : Process.t) (pid : nat) (input : value)
    : list (callable * list value) :=
  (if negb (py_eq input VNone)
   then [(BoundWrite (VFile (ChildPipe pid Stdin)), [input])] else [])
  ++ (if py_eq (Process._stdout self) CAPTURE
      then [(CaptureClosure pid Stdout, [])] else [])
  ++ (if py_eq (Process._stderr self) CAPTURE
      then [(CaptureClosure pid Stderr, [])] else []).

(** What a finished thread with the given target has stored for the stream
    [s] of its process, [old] being what was stored before. *)
Definition capture_effect (env : Env) (s : stream) (old : value) (target : callable)
    : value :=
  match target with
  | CaptureClosure pid s' =>
      if bool_decide (s' = s) then VStr (env_read env pid s) else old
  | BoundWrite _ => old
  end.

(** The last process of a runnable. *)
Definition terminal (r : runnable) : Process.t :=
  match r with
  | RProcess p => p
  | RPipe q => Pipe._process q
  end.

(** A process marked as piped whose stdout mode is [PIPE]. *)
Definition piped (p : Process.t) : Prop :=
  Process._init_pipe p = true /\ Process._stdout p = PIPE.

(** Spawn requests of children numbered from [base]: every child but the
    first has, as its stdin, the stdout pipe of the child before it. *)
Definition wired (base : nat) (reqs : list SpawnReq) : Prop :=
  forall i req, reqs !! S i = Some req ->
    req_stdin req = PFile (ChildPipe (base + i) Stdout).

(** The first process of a runnable. *)
Fixpoint first_stage (r : runnable) : Process.t :=
  match r with
  | RProcess p => p
  | RPipe q => first_stage (Pipe._preceding q)
  end.

(** * Properties *)

Ltac m_unfold :=
  unfold mbind, mret, fmap, M_bind, M_ret, M_fmap, m_bind, m_ret, lift, throw,
    res_bind_inst, res_ret, res_fmap, res_bind, raise in *.

(** ** Strings *)

Example ex_split : split "  echo   %s	x " = ["echo"; "%s"; "x"].
Proof. vm_compute. reflexivity. Qed.
Example ex_count : count "a%%%b%" "%%" = 1%nat /\ _spec_count "a%%%b%" = 2.
Proof. vm_compute. auto. Qed.
Example ex_rsplit : rsplit1 "|" "a | b | c" = ["a | b "; " c"].
Proof. vm_compute. reflexivity. Qed.
Example ex_fmt : py_format "x=%s,%d%%" [VStr "a"; VInt (-12)] = Ok "x=a,-12%".
Proof. vm_compute. reflexivity. Qed.
Example ex_cmdline : cmdline "echo %s" [VStr "hi"] = Ok RetNone.
Proof. vm_compute. reflexivity. Qed.

Lemma rsplit_last_spec sep s pre post :
  rsplit_last sep s = Some (pre, post) ->
  s = pre +:+ String sep post /\ contains sep post = false.
Proof.
  revert pre post. induction s as [|c s IH]; intros pre post H; simpl in H.
  - discriminate.
  - destruct (rsplit_last sep s) as [[a b]|] eqn:E.
    + inversion H; subst. destruct (IH a post eq_refl) as [-> Hc].
      split; [reflexivity | exact Hc].
    + unfold ascii_eqb in H. case_bool_decide; [|discriminate].
      injection H as <- <-. match goal with Hc : c = sep |- _ => rewrite Hc end.
      split; [reflexivity|].
      clear -E. induction s as [|d s IH]; [reflexivity|].
      simpl in *. destruct (rsplit_last sep s) as [[a b]|]; [discriminate|].
      unfold ascii_eqb in *. case_bool_decide; [discriminate|].
      case_bool_decide; [congruence|]. simpl. by apply IH.
Qed.

Lemma rsplit_last_contains sep s :
  contains sep s = true -> is_Some (rsplit_last sep s).
Proof.
  induction s as [|c s IH]; simpl; [discriminate|].
  intros H. destruct (rsplit_last sep s) as [[a b]|] eqn:E; [eauto|].
  unfold ascii_eqb in *. case_bool_decide as Hc.
  - subst. rewrite bool_decide_eq_true_2 by done. eauto.
  - simpl in H. destruct (IH H) as [? ?]. discriminate.
Qed.

Lemma append_length (a b : string) :
  String.length (a +:+ b) = (String.length a + String.length b)%nat.
Proof. induction a; simpl; [reflexivity | by f_equal]. Qed.

Lemma rsplit_last_shorter sep s pre post :
  rsplit_last sep s = Some (pre, post) ->
  (String.length pre < String.length s)%nat.
Proof.
  intros H. apply rsplit_last_spec in H as [-> _].
  rewrite append_length. simpl. lia.
Qed.

Lemma count_from_ready sub c s :
  count_from sub (String c s) 0
  = if starts_with sub (String c s)
    then S (count_from sub s (String.length sub - 1))
    else count_from sub s 0.
Proof. reflexivity. Qed.

Lemma count_from_skip sub c s k :
  count_from sub (String c s) (S k) = count_from sub s k.
Proof. reflexivity. Qed.

(** Every [%%] found by [count] uses up two of the [%] characters. *)
Lemma count_percent_pairs s :
  (2 * count_from "%%" s 0 <= count_from "%" s 0)%nat
  /\ (2 * count_from "%%" s 1 + (if starts_with "%" s then 1 else 0)
      <= count_from "%" s 0)%nat.
Proof.
  induction s as [|c s [IH0 IH1]]; [simpl; lia|].
  rewrite !count_from_ready, count_from_skip.
  change (starts_with "%" (String c s)) with (ascii_eqb "%" c && true).
  change (starts_with "%%" (String c s)) with (ascii_eqb "%" c && starts_with "%" s).
  change (String.length "%" - 1)%nat with 0%nat.
  change (String.length "%%" - 1)%nat with 1%nat.
  set (b := starts_with "%" s) in *.
  destruct (ascii_eqb "%" c), b; cbn [andb]; lia.
Qed.

Lemma _spec_count_nonneg template : 0 <= _spec_count template.
Proof.
  unfold _spec_count, count. simpl is_empty. cbv iota.
  pose proof (count_percent_pairs template) as [H _]. lia.
Qed.

Lemma slice_to_take {A} (args : list A) n :
  0 <= n -> slice_to args n = take (Z.to_nat n) args.
Proof. intros H. unfold slice_to. destruct (n <? 0) eqn:E; [lia | reflexivity]. Qed.

Lemma slice_from_drop {A} (args : list A) n :
  0 <= n -> slice_from args n = drop (Z.to_nat n) args.
Proof. intros H. unfold slice_from. destruct (n <? 0) eqn:E; [lia | reflexivity]. Qed.

(** ** [cmdline] *)

(** The loop keeps the number of tokens. *)
Lemma cmdline_loop_length todo i parts args parts' args' :
  cmdline_loop todo i parts args = Ok (parts', args') ->
  length parts' = length parts.
Proof.
  revert i parts args. induction todo as [|part todo IH]; intros i parts args H.
  - simpl in H. by inversion H.
  - simpl in H. m_unfold.
    destruct (py_format part _) as [s|e]; [|discriminate].
    apply IH in H. by rewrite length_insert in H.
Qed.

(** With no substitution value the tokens are returned as they are. *)
Lemma cmdline_no_args template : cmdline template [] = Ok (RetList (split template)).
Proof. reflexivity. Qed.

(** C1. With one placeholder and one value, ['echo %s'] and ['hi'], the loop
    of [cmdline] builds the vector [echo hi] and the function then returns
    [None]: the body ends without a [return].  The same holds for every
    template and every non-empty argument tuple: [cmdline] returns [None] or
    raises, never a vector. *)
Theorem C1_cmdline_with_arguments_returns_None :
  cmdline_loop (split "echo %s") 0 (split "echo %s") [VStr "hi"]
    = Ok (["echo"; "hi"], [])
  /\ cmdline "echo %s" [VStr "hi"] = Ok RetNone
  /\ forall template a args,
       cmdline template (a :: args) = Ok RetNone
       \/ exists e, cmdline template (a :: args) = Raise e.
Proof.
  split; [vm_compute; reflexivity|].
  split; [vm_compute; reflexivity|].
  intros template a args. unfold cmdline. m_unfold.
  destruct (cmdline_loop _ _ _ _) as [r|e]; [left | right; exists e]; reflexivity.
Qed.

(** ** Construction and the interactive-stream check *)

(** A dictionary without the three stream names counts no interactive
    stream. *)
Lemma interactive_count_no_stream_keys (self : Process.t) :
  Process._kwargs self !! "stdin" = None ->
  Process._kwargs self !! "stdout" = None ->
  Process._kwargs self !! "stderr" = None ->
  Process._interactive_count self = 0.
Proof.
  intros Hin Hout Herr. unfold Process._interactive_count.
  rewrite !filter_cons, filter_nil. cbv beta.
  rewrite Hin, Hout, Herr. reflexivity.
Qed.

Lemma bound_kwargs_no_stream_keys (kw : gmap string value) s :
  s = "stdin" \/ s = "stdout" \/ s = "stderr" ->
  delete "stdin" (delete "stdout" (delete "stderr" kw)) !! s = None.
Proof.
  intros [-> | [-> | ->]].
  - apply lookup_delete_eq.
  - rewrite lookup_delete_ne by done. apply lookup_delete_eq.
  - rewrite !lookup_delete_ne by done. apply lookup_delete_eq.
Qed.

Lemma Process_init_fields cmd args stdin stdout stderr kwargs p :
  Process.__init__ cmd args stdin stdout stderr kwargs = Ok p ->
  Process._cmd p = cmd /\ Process._args p = args
  /\ Process._stdin p = stdin /\ Process._stdout p = stdout
  /\ Process._stderr p = stderr /\ Process._kwargs p = kwargs
  /\ Process._init_pipe p = false /\ Process._popen p = None.
Proof.
  unfold Process.__init__, Process.Runnable__init__, py_assert. m_unfold.
  intros H.
  repeat match type of H with
         | match ?x with _ => _ end = _ => destruct x; try discriminate
         end.
  injection H as <-. repeat split.
Qed.

(** Whatever keywords [Process] is called with, the object it builds counts
    no interactive stream. *)
Lemma Process_new_counts_nothing cmd args kw :
  match Process.new cmd args kw with
  | Ok p => Process._interactive_count p = 0
  | Raise _ => True
  end.
Proof.
  destruct (Process.new cmd args kw) as [p|e] eqn:E; [|exact I].
  unfold Process.new in E. apply Process_init_fields in E.
  destruct E as (_ & _ & _ & _ & _ & Hk & _).
  apply interactive_count_no_stream_keys; rewrite Hk;
    apply bound_kwargs_no_stream_keys; auto.
Qed.

(** Induction on the chain of preceding runnables. *)
Lemma runnable_chain_ind (P : runnable -> Prop) :
  (forall p, P (RProcess p)) ->
  (forall q, P (Pipe._preceding q) -> P (RPipe q)) ->
  forall r, P r.
Proof.
  intros Hprocess Hpipe. fix IH 1. intros [p|q].
  - apply Hprocess.
  - apply Hpipe. destruct q as [pre ? ? ? ? ?]. apply IH.
Qed.

(** A runnable whose processes hold no stream name in their options counts
    no interactive stream, so the assertion of line 41 holds for it. *)
Lemma no_stream_keywords_count r :
  no_stream_keywords r -> Runnable._interactive_count r = 0.
Proof.
  unfold Runnable._interactive_count, no_stream_keywords.
  induction r as [p|q IH] using runnable_chain_ind; intros H.
  - cbn. apply interactive_count_no_stream_keys; apply H; auto; by left.
  - cbn [Pipe._interactive_count_of]. rewrite IH.
    + rewrite interactive_count_no_stream_keys; [reflexivity|..];
        apply H; auto; cbn [stages]; apply elem_of_app; right; by left.
    + intros p s Hp Hs. apply H; [|exact Hs]. cbn [stages].
      apply elem_of_app. by left.
Qed.

Lemma Process_new_no_stream_keywords cmd args kw p :
  Process.new cmd args kw = Ok p -> no_stream_keywords (RProcess p).
Proof.
  intros E p' s Hp Hs. apply list_elem_of_singleton in Hp as ->.
  apply Process_init_fields in E as (_ & _ & _ & _ & _ & -> & _).
  by apply bound_kwargs_no_stream_keys.
Qed.

(** C2. [Process('cat', stdin=INTERACT, stdout=INTERACT)] is built without
    error and holds both streams in Interact mode; so is the pipeline
    [Pipe('cat | cat', stdin=INTERACT, stdout=INTERACT)], and so is
    [Process('cat', stdin=INTERACT).pipe('cat', stdout=INTERACT)].  The
    count of line 128 reads [self._kwargs], where the three stream keywords
    never are, and is [0] for every process. *)
Theorem C2_two_interactive_streams_are_accepted :
  (exists p, Process.new "cat" [] kw_two_interactive = Ok p
             /\ Process._stdin p = INTERACT /\ Process._stdout p = INTERACT)
  /\ (exists q, Pipe.new "cat | cat" [] None kw_two_interactive = Ok q
                /\ Process._stdin <$> stages (RPipe q) = [INTERACT; _UNDEFINED]
                /\ Process._stdout <$> stages (RPipe q) = [PIPE; INTERACT])
  /\ (exists p r, Process.new "cat" [] (<["stdin" := INTERACT]> ∅) = Ok p
                  /\ Runnable.pipe (RProcess p) "cat" [] (<["stdout" := INTERACT]> ∅) = Ok r
                  /\ Process._stdin <$> stages r = [INTERACT; _UNDEFINED]
                  /\ Process._stdout <$> stages r = [PIPE; INTERACT])
  /\ (forall cmd args kw,
        match Process.new cmd args kw with
        | Ok p => Process._interactive_count p = 0
        | Raise _ => True
        end).
Proof.
  split; [eexists; repeat split; vm_compute; reflexivity|].
  split; [eexists; repeat split; vm_compute; reflexivity|].
  split; [do 2 eexists; repeat split; vm_compute; reflexivity|].
  apply Process_new_counts_nothing.
Qed.

(** ** The exit-status check *)

(** C3. [check_returncode] raises one and the same class for a process
    killed by signal 9 (return code [-9]) and for one that exited with
    status [2]: the library's [CalledProcessError].  The exception is not an
    instance of [CalledProcessSignal], for any completion record. *)
Theorem C3_signal_death_raises_the_plain_error :
  (exists e9 e2,
      check_returncode (mk_completed (RetList ["sleep"; "9"]) (VInt (-9)) VNone VNone)
        = Raise e9
      /\ check_returncode (mk_completed (RetList ["false"]) (VInt 2) VNone VNone)
         = Raise e2
      /\ exn_type e9 = exn_type e2
      /\ isinstance e9 CalledProcessSignal = false)
  /\ forall record,
       check_returncode record = Ok tt
       \/ exists e, check_returncode record = Raise e
                    /\ exn_type e = SubprocessCalledProcessError
                    /\ isinstance e CalledProcessSignal = false.
Proof.
  split.
  - do 2 eexists. repeat split.
  - intros record. unfold check_returncode.
    destruct (truthy (cp_returncode record)); [right | left; reflexivity].
    eexists. repeat split.
Qed.

(** ** Signals *)

Lemma terminate_forwards self pid w :
  Process.terminate (Process.set_popen (Some pid) self) w
  = (Ret tt, mk_world (w_env w) (CallTerminate pid :: w_log w) (w_popens w) (w_nthreads w)).
Proof. reflexivity. Qed.

Lemma kill_forwards self pid w :
  Process.kill (Process.set_popen (Some pid) self) w
  = (Ret tt, mk_world (w_env w) (CallKill pid :: w_log w) (w_popens w) (w_nthreads w)).
Proof. reflexivity. Qed.

(** C5. On every started process and for every signal, [send_signal] raises
    [TypeError] and leaves the world as it was: line 119 hands the handle's
    [send_signal] two arguments, the process object and the signal, where it
    takes one.  No signal reaches the operating system. *)
Theorem C5_send_signal_raises_TypeError :
  forall (self : Process.t) (pid : nat) (signal : value) (w : World),
    Process.send_signal (Process.set_popen (Some pid) self) signal w
    = (Throw (mk_exn TypeError "send_signal() takes 2 positional arguments"), w).
Proof. reflexivity. Qed.

(** ** [wait] and [run] *)

(** C9. [wait()] with the timeout left out raises [TypeError] on every
    process, started or not, before anything is waited for or joined:
    [Process.wait] declares [timeout] without a default. *)
Theorem C9_process_wait_needs_timeout :
  forall (self : Process.t) (w : World),
    Process.wait self None w
    = (Throw (mk_exn TypeError "wait() missing 1 required positional argument: 'timeout'"), w)
    /\ Runnable.wait (RProcess self) None w
       = (Throw (mk_exn TypeError "wait() missing 1 required positional argument: 'timeout'"), w).
Proof. intros self w. split; reflexivity. Qed.

(** [Pipe.wait] does have the default. *)
Lemma Pipe_wait_default (q : Pipe.t) w :
  Pipe.wait q None w = Pipe.wait q (Some VNone) w.
Proof. reflexivity. Qed.

(** C8. For every runnable, input and timeout, [run(input, timeout)] is
    [start()] followed by [wait(timeout)] and returns what [wait] returns. *)
Theorem C8_run_is_start_then_wait :
  forall (self : runnable) (input timeout : value) (w : World),
    Runnable.run self input timeout w = run_spec self timeout w.
Proof.
  intros self input timeout w. unfold Runnable.run, run_spec. m_unfold.
  destruct (Runnable.start self VNone w) as [[r|e|] w']; reflexivity.
Qed.

(** ** The status of a pipeline *)

Section OnlyChild.
Variable pid : nat.

Lemma only_child_ret {A} (a : A) : only_child pid (mret a).
Proof. intros w1 w2 H. split; [reflexivity | exact H]. Qed.

Lemma only_child_throw {A} c msg : only_child pid (@throw A c msg).
Proof. intros w1 w2 H. split; [reflexivity | exact H]. Qed.

Lemma only_child_bind {A B} (m : M A) (k : A -> M B) :
  only_child pid m -> (forall a, only_child pid (k a)) ->
  only_child pid (m ≫= k).
Proof.
  intros Hm Hk w1 w2 H. m_unfold.
  destruct (Hm w1 w2 H) as [Hr Hw].
  destruct (m w1) as [[a1|e1|] w1'], (m w2) as [[a2|e2|] w2'];
    simpl in Hr, Hw; try discriminate.
  - injection Hr as ->. by apply Hk.
  - injection Hr as ->. split; [reflexivity | exact Hw].
  - split; [reflexivity | exact Hw].
Qed.

Lemma only_child_returncode : only_child pid (popen_returncode pid).
Proof.
  intros w1 w2 (He & Hl & Hp). unfold popen_returncode, same_child. rewrite Hp.
  destruct (w_popens w2 !! pid) eqn:E; simpl; rewrite ?E; done.
Qed.

Lemma only_child_os_poll : only_child pid (os_poll pid).
Proof.
  intros w1 w2 (He & Hl & Hp). unfold os_poll, same_child. simpl.
  by rewrite He, Hl, Hp.
Qed.

Lemma only_child_os_wait timeout : only_child pid (os_wait pid timeout).
Proof.
  intros w1 w2 (He & Hl & Hp). unfold os_wait, same_child. simpl.
  by rewrite He, Hl, Hp.
Qed.

Lemma only_child_set_returncode rc : only_child pid (set_returncode pid rc).
Proof.
  intros w1 w2 (He & Hl & Hp). unfold set_returncode, same_child. simpl.
  split; [done|]. split; [done|].
  by rewrite !list_lookup_alter_eq, Hp.
Qed.

Lemma only_child_join th : only_child pid (thread_join th).
Proof.
  intros w1 w2 (He & Hl & Hp). unfold thread_join, same_child.
  rewrite He, Hl.
  destruct (env_join (w_env w2) (w_log w2) (th_id th)); simpl;
    by rewrite ?He, ?Hl, ?Hp.
Qed.

Lemma only_child_thread_effect th self :
  only_child pid (Process.thread_effect th self).
Proof.
  intros w1 w2 (He & Hl & Hp). unfold Process.thread_effect, same_child. simpl.
  by rewrite He, Hl, Hp.
Qed.

Lemma only_child_join_all ts self : only_child pid (Process.join_all ts self).
Proof.
  revert self. induction ts as [|th ts IH]; intros self; simpl.
  - apply only_child_ret.
  - apply only_child_bind; [apply only_child_join|]. intros _.
    apply only_child_bind; [apply only_child_thread_effect|]. exact IH.
Qed.

Lemma only_child_popen_poll : only_child pid (popen_poll pid).
Proof.
  unfold popen_poll. apply only_child_bind; [apply only_child_returncode|].
  intros [ | | | | ]; try apply only_child_ret.
  apply only_child_bind; [apply only_child_os_poll|].
  intros [z|]; [|apply only_child_ret].
  apply only_child_bind; [apply only_child_set_returncode|].
  intros _. apply only_child_ret.
Qed.

Lemma only_child_popen_wait timeout : only_child pid (popen_wait pid timeout).
Proof.
  unfold popen_wait. apply only_child_bind; [apply only_child_returncode|].
  intros [ | | | | ]; try apply only_child_ret.
  apply only_child_bind; [apply only_child_os_wait|]. intros z.
  apply only_child_bind; [apply only_child_set_returncode|].
  intros _. apply only_child_ret.
Qed.

Lemma only_child_Process_poll (self : Process.t) :
  Process._popen self = Some pid -> only_child pid (Process.poll self).
Proof.
  intros H. unfold Process.poll, Process.the_popen. rewrite H.
  intros w1 w2 Hw. apply (only_child_popen_poll w1 w2 Hw).
Qed.
End OnlyChild.

Lemma only_child_Process_wait pid (self : Process.t) timeout :
  Process._popen self = Some pid ->
  only_child pid (Process.wait self (Some timeout)).
Proof.
  intros H. unfold Process.wait, Process.the_popen. rewrite H.
  assert (X : only_child pid
                (_ ← popen_wait pid timeout;
                 self' ← Process.join_all (Process._threads self) self;
                 rc ← popen_returncode pid;
                 mret (self', mk_completed (Process._cmdline self') rc
                                (Process._captured_stdout self')
                                (Process._captured_stderr self')))).
  { apply only_child_bind; [apply only_child_popen_wait|]. intros _.
    apply only_child_bind; [apply only_child_join_all|]. intros self'.
    apply only_child_bind; [apply only_child_returncode|]. intros rc.
    apply only_child_ret. }
  intros w1 w2 Hw. apply (X w1 w2 Hw).
Qed.

Lemma Pipe_wait_completion (q : Pipe.t) timeout w :
  completion (Pipe.wait q timeout w)
  = completion (Process.wait (Pipe._process q) (Some (default VNone timeout)) w)
  /\ snd (Pipe.wait q timeout w)
     = snd (Process.wait (Pipe._process q) (Some (default VNone timeout)) w).
Proof.
  unfold Pipe.wait, completion. m_unfold.
  destruct (Process.wait _ _ w) as [[[p c]|e|] w']; split; reflexivity.
Qed.

(** The return code in the record of [Process.wait] is the [returncode]
    attribute of the process's own [Popen] object. *)
Lemma Process_wait_returncode (self : Process.t) pid timeout w :
  Process._popen self = Some pid ->
  match Process.wait self (Some timeout) w with
  | (Ret (_, c), w') => popen_returncode pid w' = (Ret (cp_returncode c), w')
  | _ => True
  end.
Proof.
  intros H. unfold Process.wait, Process.the_popen. rewrite H. m_unfold.
  destruct (popen_wait pid timeout w) as [[v|e|] w1]; try exact I.
  destruct (Process.join_all _ _ w1) as [[self'|e|] w2]; try exact I.
  unfold popen_returncode.
  destruct (w_popens w2 !! pid) as [p|] eqn:E; [|exact I].
  simpl. rewrite E. reflexivity.
Qed.

(** C7. For every pipeline whose terminal process is the child [pid]:
    [poll] is the terminal process's [poll], [wait] gives the terminal
    process's completion record, whose return code is the exit status
    recorded for [pid]; and both answers are the same in any two worlds that
    agree on the child [pid], whatever the exit status of the other stages
    is there. *)
Theorem C7_pipe_status_is_terminal_status :
  forall (q : Pipe.t) (pid : nat) (timeout : option value) (w1 w2 : World),
    Process._popen (Pipe._process q) = Some pid ->
    same_child pid w1 w2 ->
    Pipe.poll q w1 = Process.poll (Pipe._process q) w1
    /\ completion (Pipe.wait q timeout w1)
       = completion (Process.wait (Pipe._process q) (Some (default VNone timeout)) w1)
    /\ match Pipe.wait q timeout w1 with
       | (Ret (_, c), w') => popen_returncode pid w' = (Ret (cp_returncode c), w')
       | _ => True
       end
    /\ fst (Pipe.poll q w1) = fst (Pipe.poll q w2)
    /\ completion (Pipe.wait q timeout w1) = completion (Pipe.wait q timeout w2).
Proof.
  intros q pid timeout w1 w2 Hpid Hw.
  split; [reflexivity|].
  split; [apply Pipe_wait_completion|].
  split.
  { pose proof (Process_wait_returncode (Pipe._process q) pid
                  (default VNone timeout) w1 Hpid) as H.
    unfold Pipe.wait. m_unfold.
    destruct (Process.wait _ _ w1) as [[[p c]|e|] w']; [exact H | exact I | exact I]. }
  split.
  { apply (only_child_Process_poll pid _ Hpid w1 w2 Hw). }
  destruct (Pipe_wait_completion q timeout w1) as [-> _].
  destruct (Pipe_wait_completion q timeout w2) as [-> _].
  unfold completion.
  destruct (only_child_Process_wait pid (Pipe._process q) (default VNone timeout)
              Hpid w1 w2 Hw) as [-> _].
  reflexivity.
Qed.

(** ** Construction of a pipeline from a template *)

(** What a successful template constructor has done, one level deep. *)
Lemma init_fuel_inv fuel cmd args stdin stdout stderr kwargs (q : Pipe.t) :
  Pipe.init_fuel (S fuel) cmd args None stdin stdout stderr kwargs = Ok q ->
  exists preceding_cmd last_cmd pre0 pre process,
    rsplit_last "|" cmd = Some (preceding_cmd, last_cmd)
    /\ (if contains "|" preceding_cmd
        then RPipe <$> Pipe.init_fuel fuel preceding_cmd
                         (slice_to args (_spec_count preceding_cmd)) None
                         stdin _UNDEFINED stderr kwargs
        else RProcess <$> Process.__init__ preceding_cmd
                            (slice_to args (_spec_count preceding_cmd))
                            stdin _UNDEFINED stderr kwargs) = Ok pre0
    /\ Pipe._prepare_pipe_of pre0 = Ok pre
    /\ Process.__init__ last_cmd (slice_from args (_spec_count preceding_cmd))
         _UNDEFINED stdout stderr kwargs = Ok process
    /\ q = Pipe.mk pre process VNone VNone VNone VNone.
Proof.
  intros H. cbn [Pipe.init_fuel] in H. unfold rsplit1, py_assert in H.
  destruct (contains "|" cmd); [|discriminate].
  destruct (rsplit_last "|" cmd) as [[preceding_cmd last_cmd]|]; [|discriminate].
  exists preceding_cmd, last_cmd.
  m_unfold.
  match type of H with
  | context [if contains "|" preceding_cmd then ?a else ?b] =>
      destruct (if contains "|" preceding_cmd then a else b) as [pre0|] eqn:E0;
      [|discriminate]
  end.
  destruct (Pipe._prepare_pipe_of pre0) as [pre|] eqn:E1; [|discriminate].
  destruct (Process.__init__ last_cmd _ _ _ _ _) as [process|] eqn:E2; [|discriminate].
  unfold Pipe.Runnable__init__, py_assert in H. cbn in H.
  destruct (_ <=? 1); [|discriminate].
  injection H as <-.
  exists pre0, pre, process. repeat split; try assumption.
Qed.

(** The depth bound is never the reason for a result: any two bounds above
    the length of the template give the same answer. *)
Lemma init_fuel_stable f1 : forall f2 cmd args pre stdin stdout stderr kwargs,
  (String.length cmd < f1)%nat -> (String.length cmd < f2)%nat ->
  Pipe.init_fuel f1 cmd args pre stdin stdout stderr kwargs
  = Pipe.init_fuel f2 cmd args pre stdin stdout stderr kwargs.
Proof.
  induction f1 as [|f1 IH]; intros f2 cmd args pre stdin stdout stderr kwargs H1 H2;
    [lia|].
  destruct f2 as [|f2]; [lia|].
  cbn [Pipe.init_fuel]. destruct pre as [pre|]; [reflexivity|].
  unfold rsplit1.
  destruct (rsplit_last "|" cmd) as [[a b]|] eqn:E; [|reflexivity].
  apply rsplit_last_shorter in E.
  destruct (contains "|" a); [|reflexivity].
  rewrite (IH f2) by lia. reflexivity.
Qed.

Lemma Process_prepare_pipe_fields (p p' : Process.t) :
  Process._prepare_pipe p = Ok p' ->
  Process._cmd p' = Process._cmd p /\ Process._args p' = Process._args p
  /\ Process._stdin p' = Process._stdin p /\ Process._stderr p' = Process._stderr p
  /\ Process._kwargs p' = Process._kwargs p /\ Process._init_pipe p' = true
  /\ Process._stdout p'
     = if negb (py_eq (Process._stdout p) PIPE) && negb (py_eq (Process._stderr p) PIPE)
       then PIPE else Process._stdout p.
Proof.
  unfold Process._prepare_pipe, py_assert. m_unfold. cbn.
  destruct (negb (py_eq (Process._stdout p) PIPE) && negb (py_eq (Process._stderr p) PIPE)).
  - destruct (py_eq (Process._stdout p) _UNDEFINED); [|discriminate].
    intros H. injection H as <-. repeat split.
  - intros H. injection H as <-. repeat split.
Qed.

(** C6. For every template with a bar, the constructor cuts it at its last
    bar into [preceding_cmd] and [last_cmd] and is, result for result, this
    sequence: build the preceding side from [preceding_cmd] and the first
    [_spec_count preceding_cmd] arguments, as a [Pipe] when [preceding_cmd]
    still has a bar and as a [Process] otherwise; prepare it for piping;
    build the terminal [Process] from [last_cmd] and the remaining
    arguments.  A pipeline so built has [last_cmd] and the remaining
    arguments in its terminal process. *)
Theorem C6_pipe_splits_at_last_bar :
  forall (cmd : string) (args : list value) (stdin stdout stderr : value)
         (kwargs : gmap string value),
    contains "|" cmd = true ->
    exists preceding_cmd last_cmd,
      cmd = preceding_cmd +:+ String "|" last_cmd
      /\ contains "|" last_cmd = false
      /\ let n := Z.to_nat (_spec_count preceding_cmd) in
         Pipe.__init__ cmd args None stdin stdout stderr kwargs
         = (_preceding ←
              (if contains "|" preceding_cmd
               then RPipe <$> Pipe.__init__ preceding_cmd (take n args) None
                                stdin _UNDEFINED stderr kwargs
               else RProcess <$> Process.__init__ preceding_cmd (take n args)
                                   stdin _UNDEFINED stderr kwargs);
            _preceding ← Pipe._prepare_pipe_of _preceding;
            process ← Process.__init__ last_cmd (drop n args)
                        _UNDEFINED stdout stderr kwargs;
            Pipe.Runnable__init__
              (Pipe.mk _preceding process VNone VNone VNone VNone))
         /\ match Pipe.__init__ cmd args None stdin stdout stderr kwargs with
            | Ok q =>
                Process._cmd (Pipe._process q) = last_cmd
                /\ Process._args (Pipe._process q) = drop n args
                /\ match Pipe._preceding q with
                   | RPipe _ => contains "|" preceding_cmd = true
                   | RProcess p =>
                       contains "|" preceding_cmd = false
                       /\ Process._cmd p = preceding_cmd
                       /\ Process._args p = take n args
                   end
            | Raise _ => True
            end.
Proof.
  intros cmd args stdin stdout stderr kwargs Hbar.
  destruct (rsplit_last_contains _ _ Hbar) as [[preceding_cmd last_cmd] E].
  exists preceding_cmd, last_cmd.
  pose proof (rsplit_last_spec _ _ _ _ E) as [Hcmd Hlast].
  pose proof (rsplit_last_shorter _ _ _ _ E) as Hshort.
  split; [exact Hcmd|]. split; [exact Hlast|]. intros n.
  assert (Heq : Pipe.__init__ cmd args None stdin stdout stderr kwargs
                = (_preceding ←
                     (if contains "|" preceding_cmd
                      then RPipe <$> Pipe.__init__ preceding_cmd (take n args) None
                                       stdin _UNDEFINED stderr kwargs
                      else RProcess <$> Process.__init__ preceding_cmd (take n args)
                                          stdin _UNDEFINED stderr kwargs);
                   _preceding ← Pipe._prepare_pipe_of _preceding;
                   process ← Process.__init__ last_cmd (drop n args)
                               _UNDEFINED stdout stderr kwargs;
                   Pipe.Runnable__init__
                     (Pipe.mk _preceding process VNone VNone VNone VNone))).
  { unfold Pipe.__init__ at 1. cbn [Pipe.init_fuel].
    rewrite Hbar. unfold rsplit1. rewrite E.
    rewrite slice_to_take, slice_from_drop by apply _spec_count_nonneg.
    fold n. unfold Pipe.__init__.
    rewrite (init_fuel_stable (String.length cmd) (S (String.length preceding_cmd)))
      by lia.
    unfold py_assert. m_unfold.
    destruct (contains "|" preceding_cmd).
    - destruct (Pipe.init_fuel _ _ _ _ _ _ _ _) as [q0|]; [|reflexivity].
      destruct (Pipe._prepare_pipe_of _); reflexivity.
    - destruct (Process.__init__ preceding_cmd _ _ _ _ _) as [p0|]; [|reflexivity].
      destruct (Pipe._prepare_pipe_of _); reflexivity. }
  split; [exact Heq|].
  rewrite Heq. m_unfold.
  destruct (contains "|" preceding_cmd) eqn:Hpre.
  - destruct (Pipe.__init__ preceding_cmd _ _ _ _ _ _) as [q0|]; [|exact I].
    unfold Pipe._prepare_pipe_of at 1. m_unfold.
    destruct (Pipe._prepare_pipe q0) as [q1|]; [|exact I].
    destruct (Process.__init__ last_cmd _ _ _ _ _) as [process|] eqn:E2; [|exact I].
    apply Process_init_fields in E2 as (Hc & Ha & _).
    unfold Pipe.Runnable__init__, py_assert. m_unfold. cbn.
    destruct (_ <=? 1); [|exact I]. cbn. auto.
  - destruct (Process.__init__ preceding_cmd _ _ _ _ _) as [p0|] eqn:E0; [|exact I].
    unfold Pipe._prepare_pipe_of at 1. m_unfold.
    destruct (Process._prepare_pipe p0) as [p1|] eqn:E1; [|exact I].
    destruct (Process.__init__ last_cmd _ _ _ _ _) as [process|] eqn:E2; [|exact I].
    apply Process_init_fields in E0 as (Hc0 & Ha0 & _).
    apply Process_prepare_pipe_fields in E1 as (Hc1 & Ha1 & _).
    apply Process_init_fields in E2 as (Hc & Ha & _).
    unfold Pipe.Runnable__init__, py_assert. m_unfold. cbn.
    destruct (_ <=? 1); [|exact I]. cbn.
    repeat split; congruence.
Qed.

Lemma fmap_Ok_inv {A B} (f : A -> B) (m : res A) (b : B) :
  f <$> m = Ok b -> exists a, m = Ok a /\ b = f a.
Proof.
  m_unfold. destruct m as [a|e]; [|discriminate].
  intros H. injection H as <-. eauto.
Qed.

(** The stream modes of the stages of a pipeline built from a template:
    [first :: middle] are the stages of the preceding side. *)
Lemma init_fuel_stages fuel : forall cmd args stdin stdout stderr kwargs (q : Pipe.t),
  Pipe.init_fuel fuel cmd args None stdin stdout stderr kwargs = Ok q ->
  exists first middle,
    stages (Pipe._preceding q) = first :: middle
    /\ (forall p, p ∈ stages (RPipe q) ->
          Process._stderr p = stderr /\ Process._kwargs p = kwargs)
    /\ Process._stdin first = stdin
    /\ (forall p, p ∈ middle ++ [Pipe._process q] -> Process._stdin p = _UNDEFINED)
    /\ Process._stdout (Pipe._process q) = stdout
    /\ Process._init_pipe (Pipe._process q) = false
    /\ (forall p, p ∈ first :: middle ->
          Process._init_pipe p = true
          /\ Process._stdout p = if py_eq stderr PIPE then _UNDEFINED else PIPE).
Proof.
  induction fuel as [|fuel IH]; intros cmd args stdin stdout stderr kwargs q H;
    [discriminate|].
  apply init_fuel_inv in H
    as (preceding_cmd & last_cmd & pre0 & pre & process & _ & E0 & E1 & E2 & ->).
  apply Process_init_fields in E2 as (_ & _ & Hin & Hout & Herr & Hkw & Hip & _).
  cbn [Pipe._preceding Pipe._process stages].
  destruct (contains "|" preceding_cmd).
  - apply fmap_Ok_inv in E0 as (q0 & E0 & ->).
    apply IH in E0 as (first & middle & Hst & Hall & Hfirst & Hmid & Hlo & Hli & Hpre).
    cbn [Pipe._prepare_pipe_of] in E1. apply fmap_Ok_inv in E1 as (q1 & E1 & ->).
    unfold Pipe._prepare_pipe in E1. m_unfold.
    destruct (Process._prepare_pipe (Pipe._process q0)) as [p1|] eqn:Ep; [|discriminate].
    injection E1 as <-.
    apply Process_prepare_pipe_fields in Ep
      as (_ & _ & Hin1 & Herr1 & Hkw1 & Hip1 & Hout1).
    assert (Hlast0 : Process._stderr (Pipe._process q0) = stderr
                     /\ Process._kwargs (Pipe._process q0) = kwargs).
    { apply Hall. cbn [stages]. apply elem_of_app. right. by apply list_elem_of_singleton. }
    destruct Hlast0 as [Herr0 Hkw0].
    exists first, (middle ++ [p1]). cbn [stages Pipe._preceding Pipe._process].
    rewrite Hst. split; [reflexivity|].
    split.
    { intros p Hp. rewrite <- !app_comm_cons, <- app_assoc in Hp.
      apply elem_of_cons in Hp as [->|Hp].
      - apply Hall. cbn [stages]. rewrite Hst. apply elem_of_app. left. by left.
      - apply elem_of_app in Hp as [Hp|Hp].
        + apply Hall. cbn [stages]. rewrite Hst. apply elem_of_app. left. by right.
        + apply elem_of_cons in Hp as [->|Hp]; [split; congruence|].
          apply list_elem_of_singleton in Hp as ->. by split. }
    split; [exact Hfirst|].
    split.
    { intros p Hp. rewrite <- app_assoc in Hp. apply elem_of_app in Hp as [Hp|Hp].
      - apply Hmid. apply elem_of_app. by left.
      - apply elem_of_cons in Hp as [->|Hp].
        + rewrite Hin1. apply Hmid. apply elem_of_app. right.
          by apply list_elem_of_singleton.
        + apply list_elem_of_singleton in Hp as ->. exact Hin. }
    split; [exact Hout|]. split; [exact Hip|].
    intros p Hp. rewrite app_comm_cons in Hp. apply elem_of_app in Hp as [Hp|Hp].
    + by apply Hpre.
    + apply list_elem_of_singleton in Hp as ->. split; [exact Hip1|].
      rewrite Hout1, Hlo, Herr0. by destruct (py_eq stderr PIPE).
  - apply fmap_Ok_inv in E0 as (p0 & E0 & ->).
    apply Process_init_fields in E0 as (_ & _ & Hin0 & Hout0 & Herr0 & Hkw0 & _).
    cbn [Pipe._prepare_pipe_of] in E1. apply fmap_Ok_inv in E1 as (p1 & Ep & ->).
    apply Process_prepare_pipe_fields in Ep
      as (_ & _ & Hin1 & Herr1 & Hkw1 & Hip1 & Hout1).
    exists p1, []. cbn [stages app].
    split; [reflexivity|].
    split.
    { intros p Hp. apply elem_of_cons in Hp as [->|Hp]; [split; congruence|].
      apply list_elem_of_singleton in Hp as ->. by split. }
    split; [congruence|].
    split.
    { intros p Hp. apply list_elem_of_singleton in Hp as ->. exact Hin. }
    split; [exact Hout|]. split; [exact Hip|].
    intros p Hp. apply list_elem_of_singleton in Hp as ->. split; [exact Hip1|].
    rewrite Hout1, Hout0, Herr0. by destruct (py_eq stderr PIPE).
Qed.

(** C10, as amended.  In a pipeline built from a template, every stage has
    the constructor's stderr mode and spawn options; the first stage has its
    stdin mode and every other stage has stdin unset; the terminal stage has
    its stdout mode and is not marked as piped; every preceding stage is
    marked as piped, and its stdout is Pipe unless the stderr mode is Pipe,
    in which case its stdout stays unset. *)
Theorem C10_stream_modes_of_the_stages :
  forall (cmd : string) (args : list value) (stdin stdout stderr : value)
         (kwargs : gmap string value) (q : Pipe.t),
    Pipe.__init__ cmd args None stdin stdout stderr kwargs = Ok q ->
    exists first middle,
      stages (Pipe._preceding q) = first :: middle
      /\ (forall p, p ∈ stages (RPipe q) ->
            Process._stderr p = stderr /\ Process._kwargs p = kwargs)
      /\ Process._stdin first = stdin
      /\ (forall p, p ∈ middle ++ [Pipe._process q] -> Process._stdin p = _UNDEFINED)
      /\ Process._stdout (Pipe._process q) = stdout
      /\ Process._init_pipe (Pipe._process q) = false
      /\ (forall p, p ∈ first :: middle ->
            Process._init_pipe p = true
            /\ Process._stdout p = if py_eq stderr PIPE then _UNDEFINED else PIPE).
Proof. intros cmd args stdin stdout stderr kwargs q. apply init_fuel_stages. Qed.

(** With [stderr=PIPE], ['a | b'] is built and the stdout of its preceding
    stage is not Pipe, against C10 as stated. *)
Lemma C10_counterexample :
  ~ (forall q, Pipe.new "a | b" [] None kw_stderr_pipe = Ok q ->
       forall p, p ∈ stages (Pipe._preceding q) -> Process._stdout p = PIPE).
Proof.
  intros H.
  destruct (Pipe.new "a | b" [] None kw_stderr_pipe) as [q|e] eqn:E;
    [|vm_compute in E; discriminate].
  specialize (H q eq_refl).
  vm_compute in E. injection E as <-.
  specialize (H _ (list_elem_of_here _ _)). vm_compute in H. discriminate.
Qed.

(** ** Starting a process with eager input *)

Ltac process_fields :=
  cbn [Process._cmd Process._args Process._cmdline Process._stdin Process._stdout
       Process._stderr Process._kwargs Process._popen Process._threads
       Process._captured_stdout Process._captured_stderr Process._init_pipe
       Process._pipe Process._input Process._output] in *.


Lemma popen_stream_new r env lg popens n s :
  popen_stream (length popens) s (mk_world env lg (popens ++ [mk_popen r None]) n)
  = (Ret (match match s with
                | Stdin => req_stdin r
                | Stdout => req_stdout r
                | Stderr => req_stderr r
                end with
          | SUBPROCESS_PIPE => VFile (ChildPipe (length popens) s)
          | _ => VNone
          end),
     mk_world env lg (popens ++ [mk_popen r None]) n).
Proof.
  unfold popen_stream. cbn [w_popens]. rewrite list_lookup_middle by reflexivity.
  reflexivity.
Qed.

Lemma expose_fields (self : Process.t) p_in p_out p_err :
  let self' := Process.expose self p_in p_out p_err in
  Process._threads self' = Process._threads self
  /\ Process._stdout self' = Process._stdout self
  /\ Process._stderr self' = Process._stderr self
  /\ Process._popen self' = Process._popen self.
Proof.
  destruct self. unfold Process.expose. process_fields.
  repeat match goal with |- context [if ?c then _ else _] => destruct c end;
    repeat split.
Qed.






(** C6 at the template ['a | b | c'] with no argument and no keyword. *)
Lemma C6_pipe_splits_at_last_bar_witness :
  contains "|" "a | b | c" = true
  /\ exists preceding_cmd last_cmd,
       "a | b | c" = preceding_cmd +:+ String "|" last_cmd
       /\ contains "|" last_cmd = false
       /\ let n := Z.to_nat (_spec_count preceding_cmd) in
          Pipe.__init__ "a | b | c" [] None _UNDEFINED _UNDEFINED _UNDEFINED ∅
          = (_preceding ←
               (if contains "|" preceding_cmd
                then RPipe <$> Pipe.__init__ preceding_cmd (take n []) None
                                 _UNDEFINED _UNDEFINED _UNDEFINED ∅
                else RProcess <$> Process.__init__ preceding_cmd (take n [])
                                    _UNDEFINED _UNDEFINED _UNDEFINED ∅);
             _preceding ← Pipe._prepare_pipe_of _preceding;
             process ← Process.__init__ last_cmd (drop n [])
                         _UNDEFINED _UNDEFINED _UNDEFINED ∅;
             Pipe.Runnable__init__
               (Pipe.mk _preceding process VNone VNone VNone VNone))
          /\ match Pipe.__init__ "a | b | c" [] None _UNDEFINED _UNDEFINED _UNDEFINED ∅ with
             | Ok q =>
                 Process._cmd (Pipe._process q) = last_cmd
                 /\ Process._args (Pipe._process q) = drop n []
                 /\ match Pipe._preceding q with
                    | RPipe _ => contains "|" preceding_cmd = true
                    | RProcess p =>
                        contains "|" preceding_cmd = false
                        /\ Process._cmd p = preceding_cmd
                        /\ Process._args p = take n []
                    end
             | Raise _ => True
             end.
Proof.
  split; [reflexivity|].
  apply (C6_pipe_splits_at_last_bar "a | b | c" [] _UNDEFINED _UNDEFINED _UNDEFINED ∅).
  reflexivity.
Defined.

(** ['a | b | c'] groups as [(a | b) | c], and two arguments go one to each
    of the first two commands of ['a %s | b %s | c']. *)
Example abc_groups_to_the_left :
  (exists q q', Pipe.new "a | b | c" [] None ∅ = Ok q
                /\ Pipe._preceding q = RPipe q'
                /\ Process._cmd <$> stages (RPipe q') = ["a "; " b "]
                /\ Process._cmd (Pipe._process q) = " c")
  /\ (exists q, Pipe.new "a %s | b %s | c" [VStr "x"; VStr "y"] None ∅ = Ok q
                /\ Process._args <$> stages (RPipe q) = [[VStr "x"]; [VStr "y"]; []]).
Proof.
  split.
  - do 2 eexists. split; [vm_compute; reflexivity|]. repeat split.
  - eexists. split; [vm_compute; reflexivity|]. reflexivity.
Qed.

(** C7 at ['a | b | c'] started in [world0], where the first child exits
    with status [1] and the last with [0]: the pipeline reports [0], also in
    the world where the first child's failure has been recorded. *)
Lemma C7_pipe_status_is_terminal_status_witness :
  exists (q : Pipe.t) (w1 : World),
    abc_started = (Ret (RPipe q), w1)
    /\ Process._popen (Pipe._process q) = Some 2%nat
    /\ same_child 2 w1 (snd (set_returncode 0 1 w1))
    /\ fst (Pipe.poll q w1) = fst (Pipe.poll q (snd (set_returncode 0 1 w1)))
    /\ completion (Pipe.wait q None w1)
       = completion (Pipe.wait q None (snd (set_returncode 0 1 w1)))
    /\ completion (Pipe.wait q None (snd (set_returncode 0 1 w1)))
       = Ret (mk_completed (RetList ["c"]) (VInt 0) VNone VNone).
Proof.
  do 2 eexists. split; [vm_compute; reflexivity|].
  split; [reflexivity|].
  split; [repeat split|].
  match goal with
  | |- fst (Pipe.poll ?q ?w1) = fst (Pipe.poll ?q ?w2) /\ _ =>
      destruct (C7_pipe_status_is_terminal_status q 2%nat None w1 w2)
        as (_ & _ & _ & Hpoll & Hwait);
      [reflexivity | repeat split |]
  end.
  split; [exact Hpoll|]. split; [exact Hwait|].
  vm_compute. reflexivity.
Defined.

(** C10 at ['a | b | c'] with [stdin=INTERACT], [stdout=CAPTURE],
    [stderr=STDOUT]. *)
Lemma C10_stream_modes_of_the_stages_witness :
  exists q : Pipe.t,
    Pipe.__init__ "a | b | c" [] None INTERACT CAPTURE STDOUT ∅ = Ok q
    /\ exists first middle,
         stages (Pipe._preceding q) = first :: middle
         /\ (forall p, p ∈ stages (RPipe q) ->
               Process._stderr p = STDOUT /\ Process._kwargs p = ∅)
         /\ Process._stdin first = INTERACT
         /\ (forall p, p ∈ middle ++ [Pipe._process q] -> Process._stdin p = _UNDEFINED)
         /\ Process._stdout (Pipe._process q) = CAPTURE
         /\ Process._init_pipe (Pipe._process q) = false
         /\ (forall p, p ∈ first :: middle ->
               Process._init_pipe p = true
               /\ Process._stdout p = if py_eq STDOUT PIPE then _UNDEFINED else PIPE).
Proof.
  eexists. split; [vm_compute; reflexivity|].
  apply (C10_stream_modes_of_the_stages "a | b | c" [] INTERACT CAPTURE STDOUT ∅).
  vm_compute. reflexivity.
Defined.

(** ** The interactive-stream check on pipelines *)

Lemma Pipe_template_no_stream_keywords cmd args kw (q : Pipe.t) :
  Pipe.new cmd args None kw = Ok q -> no_stream_keywords (RPipe q).
Proof.
  unfold Pipe.new, Pipe.__init__. intros E.
  apply init_fuel_stages in E as (first & middle & _ & Hall & _).
  intros p s Hp Hs. destruct (Hall p Hp) as [_ ->].
  by apply bound_kwargs_no_stream_keys.
Qed.

Lemma prepare_pipe_keeps_kwargs r r' :
  Pipe._prepare_pipe_of r = Ok r' ->
  Process._kwargs <$> stages r' = Process._kwargs <$> stages r.
Proof.
  destruct r as [p|q]; cbn [Pipe._prepare_pipe_of]; intros E;
    apply fmap_Ok_inv in E as (x & E & ->).
  - apply Process_prepare_pipe_fields in E as (_ & _ & _ & _ & Hk & _).
    cbn. by rewrite Hk.
  - unfold Pipe._prepare_pipe in E. m_unfold.
    destruct (Process._prepare_pipe (Pipe._process q)) as [p1|] eqn:Ep; [|discriminate].
    injection E as <-.
    apply Process_prepare_pipe_fields in Ep as (_ & _ & _ & _ & Hk & _).
    cbn [stages Pipe._preceding Pipe._process]. rewrite !fmap_app. cbn. by rewrite Hk.
Qed.

(** Chaining with [.pipe()] keeps the options free of stream names. *)
Lemma Runnable_pipe_no_stream_keywords self cmd args kw r :
  Runnable.pipe self cmd args kw = Ok r ->
  no_stream_keywords self -> no_stream_keywords r.
Proof.
  unfold Runnable.pipe. m_unfold. intros E Hself.
  destruct (Pipe._prepare_pipe_of self) as [self'|] eqn:Eprep; [|discriminate].
  destruct (kw !! "_preceding"); [discriminate|].
  destruct (Pipe.new cmd args (Some self') kw) as [q|] eqn:Enew; [|discriminate].
  injection E as <-.
  unfold Pipe.new, Pipe.__init__ in Enew. cbn [Pipe.init_fuel] in Enew.
  unfold py_assert in Enew. m_unfold.
  destruct (py_eq _ _UNDEFINED); [|discriminate].
  destruct (Process.__init__ cmd args _ _ _ _) as [process|] eqn:Ep; [|discriminate].
  unfold Pipe.Runnable__init__, py_assert in Enew. cbn in Enew.
  destruct (_ <=? 1); [|discriminate]. injection Enew as <-.
  apply Process_init_fields in Ep as (_ & _ & _ & _ & _ & Hk & _).
  apply prepare_pipe_keeps_kwargs in Eprep.
  intros p s Hp Hs. cbn [stages Pipe._preceding Pipe._process] in Hp.
  apply elem_of_app in Hp as [Hp|Hp].
  - assert (Hin : Process._kwargs p ∈ Process._kwargs <$> stages self).
    { rewrite <- Eprep. by apply list_elem_of_fmap_2. }
    apply list_elem_of_fmap in Hin as (p0 & -> & Hp0). by apply Hself.
  - apply list_elem_of_singleton in Hp as ->. rewrite Hk.
    by apply bound_kwargs_no_stream_keys.
Qed.

(** Whatever the public constructors and [.pipe()] build counts no
    interactive stream. *)
Lemma built_runnables_count_nothing :
  (forall cmd args kw p,
      Process.new cmd args kw = Ok p -> Runnable._interactive_count (RProcess p) = 0)
  /\ (forall cmd args kw q,
        Pipe.new cmd args None kw = Ok q -> Runnable._interactive_count (RPipe q) = 0)
  /\ (forall self cmd args kw r,
        no_stream_keywords self -> Runnable.pipe self cmd args kw = Ok r ->
        Runnable._interactive_count r = 0).
Proof.
  split; [|split].
  - intros cmd args kw p E. apply no_stream_keywords_count.
    by eapply Process_new_no_stream_keywords.
  - intros cmd args kw q E. apply no_stream_keywords_count.
    by eapply Pipe_template_no_stream_keywords.
  - intros self cmd args kw r Hself E. apply no_stream_keywords_count.
    by eapply Runnable_pipe_no_stream_keywords.
Qed.

(** * Further properties of the module *)

(** ** Placeholder counts and tokens *)

Lemma count_from_le_length sub s k :
  (count_from sub s k <= String.length s)%nat.
Proof.
  revert k. induction s as [|c s IH]; intros k; [simpl; lia|].
  destruct k as [|k].
  - rewrite count_from_ready. destruct (starts_with sub (String c s)).
    + specialize (IH (String.length sub - 1)%nat). simpl String.length. lia.
    + specialize (IH 0%nat). simpl String.length. lia.
  - rewrite count_from_skip. specialize (IH k). simpl String.length. lia.
Qed.

Lemma py_slices_partition {A} (args : list A) (n : Z) :
  slice_to args n ++ slice_from args n = args.
Proof. unfold slice_to, slice_from. destruct (n <? 0); apply take_drop. Qed.

(** X1. [_spec_count] is never negative and never more than the length of
    the template, so the slices [args[:n]] and [args[n:]] taken with it are
    a prefix of the arguments and the rest: together they are the arguments,
    and the prefix has at most [n] elements. *)
Theorem spec_count_bounds_and_slices :
  forall (template : string) (args : list value),
    let n := _spec_count template in
    0 <= n <= Z.of_nat (String.length template)
    /\ slice_to args n = take (Z.to_nat n) args
    /\ slice_from args n = drop (Z.to_nat n) args
    /\ slice_to args n ++ slice_from args n = args
    /\ (length (slice_to args n) <= Z.to_nat n)%nat.
Proof.
  intros template args n.
  assert (H0 : 0 <= n) by apply _spec_count_nonneg.
  split.
  { split; [exact H0|]. unfold n, _spec_count, count. simpl is_empty. cbv iota.
    pose proof (count_from_le_length "%" template 0). lia. }
  split; [by apply slice_to_take|]. split; [by apply slice_from_drop|].
  split; [apply py_slices_partition|].
  rewrite slice_to_take by exact H0. rewrite length_take. lia.
Qed.

Lemma append_cons x (a b : string) : String x a +:+ b = String x (a +:+ b).
Proof. reflexivity. Qed.

Lemma append_assoc (a b c : string) : (a +:+ b) +:+ c = a +:+ (b +:+ c).
Proof.
  induction a as [|x a IH]; [reflexivity|]. rewrite !append_cons. by rewrite IH.
Qed.





Lemma contains_app c (a b : string) :
  contains c (a +:+ b) = contains c a || contains c b.
Proof.
  induction a as [|x a IH]; simpl; [reflexivity|]. rewrite IH.
  by rewrite orb_assoc.
Qed.

Lemma split_from_keeps_out c cur s :
  contains c cur = false -> contains c s = false ->
  Forall (fun t => contains c t = false) (split_from cur s).
Proof.
  revert cur. induction s as [|x s IH]; intros cur Hcur Hs; simpl.
  - destruct (is_empty cur); [constructor|]. by constructor.
  - simpl in Hs. apply orb_false_iff in Hs as [Hx Hs].
    destruct (is_space x).
    + destruct (is_empty cur); [by apply IH|].
      constructor; [exact Hcur | by apply IH].
    + apply IH; [|exact Hs]. rewrite contains_app, Hcur. simpl. by rewrite Hx.
Qed.

Lemma count_from_absent sub c s k :
  contains c s = false -> starts_with (String c EmptyString) sub = true ->
  count_from sub s k = 0%nat.
Proof.
  intros Hs Hsub. revert k. induction s as [|x s IH]; intros k; [reflexivity|].
  simpl in Hs. apply orb_false_iff in Hs as [Hx Hs].
  destruct k as [|k]; [|rewrite count_from_skip; by apply IH].
  rewrite count_from_ready.
  destruct sub as [|y sub]; [discriminate|].
  cbn [starts_with] in *. apply andb_true_iff in Hsub as [Hy _].
  unfold ascii_eqb in *. apply bool_decide_eq_true_1 in Hy. subst y.
  rewrite Hx. cbn [andb]. by apply IH.
Qed.

Lemma spec_count_percent_free t : contains "%" t = false -> _spec_count t = 0.
Proof.
  intros H. unfold _spec_count, count. simpl is_empty. cbv iota.
  rewrite !(count_from_absent _ "%" t 0 H) by reflexivity. reflexivity.
Qed.

Lemma py_format_percent_free t : contains "%" t = false -> py_format t [] = Ok t.
Proof.
  induction t as [|c t IH]; intros H; [reflexivity|].
  simpl in H. apply orb_false_iff in H as [Hc Ht].
  cbn [py_format].
  assert (Hc' : ascii_eqb c "%" = false).
  { unfold ascii_eqb in *. apply bool_decide_eq_false_2.
    apply bool_decide_eq_false_1 in Hc. congruence. }
  rewrite Hc', (IH Ht). reflexivity.
Qed.

Lemma cmdline_loop_percent_free parts args :
  Forall (fun t => contains "%" t = false) parts ->
  forall todo i, drop i parts = todo ->
    cmdline_loop todo i parts args = Ok (parts, args).
Proof.
  intros Hparts todo. induction todo as [|part todo IH]; intros i Hdrop; [reflexivity|].
  assert (Hi : parts !! i = Some part).
  { rewrite <- (Nat.add_0_r i), <- lookup_drop, Hdrop. reflexivity. }
  assert (Hfree : contains "%" part = false).
  { rewrite Forall_forall in Hparts. apply Hparts.
    by eapply list_elem_of_lookup_2. }
  cbn [cmdline_loop]. rewrite (spec_count_percent_free _ Hfree).
  change (slice_to args 0) with (@nil value).
  change (slice_from args 0) with args.
  rewrite (py_format_percent_free _ Hfree). m_unfold.
  rewrite (list_insert_id _ _ _ Hi). apply IH.
  replace (S i) with (i + 1)%nat by lia.
  rewrite <- drop_drop, Hdrop. reflexivity.
Qed.

(** X3. On a template without [%], [cmdline] never raises, whatever values
    it is given: the loop leaves every token as it is and consumes no
    value, so surplus arguments are ignored without an error. *)
Theorem cmdline_percent_free :
  forall (template : string) (args : list value),
    contains "%" template = false ->
    cmdline_loop (split template) 0 (split template) args = Ok (split template, args)
    /\ cmdline template args
       = Ok (match args with [] => RetList (split template) | _ :: _ => RetNone end).
Proof.
  intros template args H.
  assert (Hloop : cmdline_loop (split template) 0 (split template) args
                  = Ok (split template, args)).
  { apply cmdline_loop_percent_free; [|reflexivity].
    by apply split_from_keeps_out. }
  split; [exact Hloop|].
  unfold cmdline. destruct args as [|a args]; [reflexivity|].
  rewrite Hloop. reflexivity.
Qed.

Lemma cmdline_percent_free_witness :
  contains "%" "ls -l /tmp" = false
  /\ cmdline_loop (split "ls -l /tmp") 0 (split "ls -l /tmp") [VStr "x"; VInt 3]
     = Ok (split "ls -l /tmp", [VStr "x"; VInt 3])
  /\ cmdline "ls -l /tmp" [VStr "x"; VInt 3] = Ok RetNone.
Proof.
  split; [reflexivity|].
  apply (cmdline_percent_free "ls -l /tmp" [VStr "x"; VInt 3]). reflexivity.
Defined.

(** ** Construction *)

Lemma py_eq_true a b : py_eq a b = true <-> a = b.
Proof. unfold py_eq. apply bool_decide_eq_true. Qed.

Lemma py_eq_false a b : py_eq a b = false <-> a <> b.
Proof. unfold py_eq. apply bool_decide_eq_false. Qed.

Lemma py_eq_refl a : py_eq a a = true.
Proof. by apply py_eq_true. Qed.

Lemma stdin_mode_ok_iff stdin :
  py_in stdin [_UNDEFINED; STDIN; INTERACT] || has_fileno stdin = true
  <-> (stdin = _UNDEFINED \/ stdin = STDIN \/ stdin = INTERACT
       \/ exists f, stdin = VFile f).
Proof.
  unfold py_in. cbn [existsb]. rewrite !orb_true_iff, !py_eq_true.
  split.
  - intros [[?|[?|[?|?]]]|H]; auto; [discriminate|].
    destruct stdin; try discriminate. eauto 10.
  - intros [?|[?|[?|[f ->]]]]; auto.
Qed.

Lemma output_mode_ok_iff v :
  negb (py_in v [STDIN; VNone]) = true <-> v <> STDIN /\ v <> VNone.
Proof.
  unfold py_in. cbn [existsb]. rewrite negb_true_iff, !orb_false_iff, !py_eq_false.
  tauto.
Qed.

Lemma not_both_pipe_iff a b :
  negb (py_eq a PIPE && py_eq b PIPE) = true <-> ~ (a = PIPE /\ b = PIPE).
Proof.
  rewrite negb_true_iff, andb_false_iff, !py_eq_false.
  split; [tauto|]. intros H. destruct (decide (a = PIPE)); [right | left]; tauto.
Qed.

(** When the keywords bound by [Process.new] are given, construction
    succeeds exactly when [cmdline] does not raise and the four assertions
    on the stream modes hold; the interactive-stream assertion never
    decides. *)
Lemma Process_new_ok_iff :
  forall (cmd : string) (args : list value) (kw : gmap string value),
    let stdin := default _UNDEFINED (kw !! "stdin") in
    let stdout := default _UNDEFINED (kw !! "stdout") in
    let stderr := default _UNDEFINED (kw !! "stderr") in
    let kwargs := delete "stdin" (delete "stdout" (delete "stderr" kw)) in
    (forall p, Process.new cmd args kw = Ok p <->
       exists cl,
         cmdline cmd args = Ok cl
         /\ (stdin = _UNDEFINED \/ stdin = STDIN \/ stdin = INTERACT
             \/ exists f, stdin = VFile f)
         /\ stdout <> STDIN /\ stdout <> VNone
         /\ stderr <> STDIN /\ stderr <> VNone
         /\ ~ (stdout = PIPE /\ stderr = PIPE)
         /\ p = Process.mk cmd args cl stdin stdout stderr kwargs None []
                  VNone VNone false VNone VNone VNone).
Proof.
  intros cmd args kw stdin stdout stderr kwargs p.
  unfold Process.new. fold stdin stdout stderr kwargs.
  unfold Process.__init__, Process.Runnable__init__. m_unfold.
  assert (Hcount : forall cl,
             Process._interactive_count
               (Process.set_output VNone (Process.set_input VNone (Process.set_pipe VNone
                  (Process.mk cmd args cl stdin stdout stderr kwargs None []
                     VNone VNone false VNone VNone VNone)))) = 0).
  { intros cl. apply interactive_count_no_stream_keys; cbn;
      apply bound_kwargs_no_stream_keys; auto. }
  pose proof (stdin_mode_ok_iff stdin) as H1.
  pose proof (output_mode_ok_iff stdout) as H2.
  pose proof (output_mode_ok_iff stderr) as H3.
  pose proof (not_both_pipe_iff stdout stderr) as H4.
  destruct (cmdline cmd args) as [cl|e];
    [|split; [discriminate | intros (? & ? & _); discriminate]].
  rewrite (Hcount cl). unfold py_assert.
  destruct (py_in stdin [_UNDEFINED; STDIN; INTERACT] || has_fileno stdin);
    [|split; [discriminate | intros (? & _ & Hin & _); apply H1 in Hin; discriminate]].
  destruct (negb (py_in stdout [STDIN; VNone]));
    [|split; [discriminate
             | intros (? & _ & _ & Ha & Hb & _); destruct H2 as [_ H2];
               specialize (H2 (conj Ha Hb)); discriminate]].
  destruct (negb (py_in stderr [STDIN; VNone]));
    [|split; [discriminate
             | intros (? & _ & _ & _ & _ & Ha & Hb & _); destruct H3 as [_ H3];
               specialize (H3 (conj Ha Hb)); discriminate]].
  destruct (negb (py_eq stdout PIPE && py_eq stderr PIPE));
    [|split; [discriminate
             | intros (? & _ & _ & _ & _ & _ & _ & Ha & _); apply H4 in Ha;
               discriminate]].
  cbn. split.
  - intros H. injection H as <-. exists cl.
    split; [reflexivity|]. split; [by apply H1|].
    destruct H2 as [H2 _], H3 as [H3 _], H4 as [H4 _].
    destruct (H2 eq_refl), (H3 eq_refl). specialize (H4 eq_refl).
    repeat split; assumption.
  - intros (cl' & Hcl & _ & _ & _ & _ & _ & _ & ->). by injection Hcl as <-.
Qed.

(** X4. [Process(cmd, *args, **kw)] succeeds exactly when no keyword is
    named [self] or [cmd], [cmdline] does not raise, stdin is unset,
    [STDIN], [INTERACT] or a file object, stdout and stderr are neither
    [STDIN] nor [None], and stdout and stderr are not both [PIPE]; the
    interactive-stream assertion never decides.  The object built is inert:
    no child, no thread, nothing captured, no handle exposed, not marked as
    piped.  A keyword named [self] or [cmd] gives [TypeError]. *)
Theorem Process_call_succeeds_iff :
  forall (cmd : string) (args : list value) (kw : gmap string value),
    let stdin := default _UNDEFINED (kw !! "stdin") in
    let stdout := default _UNDEFINED (kw !! "stdout") in
    let stderr := default _UNDEFINED (kw !! "stderr") in
    let kwargs := delete "stdin" (delete "stdout" (delete "stderr" kw)) in
    (forall p, Process.call cmd args kw = Ok p <->
       kw !! "self" = None /\ kw !! "cmd" = None
       /\ exists cl,
            cmdline cmd args = Ok cl
            /\ (stdin = _UNDEFINED \/ stdin = STDIN \/ stdin = INTERACT
                \/ exists f, stdin = VFile f)
            /\ stdout <> STDIN /\ stdout <> VNone
            /\ stderr <> STDIN /\ stderr <> VNone
            /\ ~ (stdout = PIPE /\ stderr = PIPE)
            /\ p = Process.mk cmd args cl stdin stdout stderr kwargs None []
                     VNone VNone false VNone VNone VNone)
    /\ (is_Some (kw !! "self") \/ is_Some (kw !! "cmd") ->
        exists e, Process.call cmd args kw = Raise e /\ exn_type e = TypeError).
Proof.
  intros cmd args kw stdin stdout stderr kwargs.
  pose proof (Process_new_ok_iff cmd args kw) as Hnew. cbn zeta in Hnew.
  fold stdin stdout stderr kwargs in Hnew.
  unfold Process.call, rebinds_positional.
  destruct (kw !! "self") as [v1|] eqn:E1; [|destruct (kw !! "cmd") as [v2|] eqn:E2].
  - cbn. split.
    + intros p. split; [discriminate | intros (H & _); discriminate].
    + intros _. eexists. split; reflexivity.
  - cbn. split.
    + intros p. split; [discriminate | intros (_ & H & _); discriminate].
    + intros _. eexists. split; reflexivity.
  - cbn. split.
    + intros p. rewrite (Hnew p). split.
      * intros H. split; [reflexivity|]. split; [reflexivity | exact H].
      * intros (_ & _ & H). exact H.
    + intros [[? H]|[? H]]; discriminate.
Qed.

(** X5. [_prepare_pipe] succeeds exactly when stdout or stderr is already
    [PIPE] or stdout is unset; any other stdout mode (Capture, Ignore,
    Interact, a file, ...) with a stderr that is not [PIPE] raises
    [AssertionError].  When it succeeds the process is marked as piped, one
    of its two output modes is [PIPE], and preparing it again changes
    nothing. *)
Theorem prepare_pipe_succeeds_iff :
  forall p : Process.t,
    ((exists p', Process._prepare_pipe p = Ok p')
     <-> (Process._stdout p = PIPE \/ Process._stderr p = PIPE
          \/ Process._stdout p = _UNDEFINED))
    /\ match Process._prepare_pipe p with
       | Ok p' =>
           Process._init_pipe p' = true
           /\ (Process._stdout p' = PIPE \/ Process._stderr p' = PIPE)
           /\ Process._prepare_pipe p' = Ok p'
       | Raise e => exn_type e = AssertionError
       end.
Proof.
  intros [cmd args cl sin sout serr kw po ths co ce ip pp ii oo].
  unfold Process._prepare_pipe, Process.set_init_pipe, Process.set_stdout, py_assert.
  m_unfold. process_fields.
  destruct (py_eq sout PIPE) eqn:E1; [apply py_eq_true in E1 | apply py_eq_false in E1];
    (destruct (py_eq serr PIPE) eqn:E2;
       [apply py_eq_true in E2 | apply py_eq_false in E2]);
    cbn [negb andb].
  - subst. split; [split; eauto|]. process_fields. rewrite py_eq_refl. cbn. auto.
  - subst. split; [split; eauto|]. process_fields. rewrite py_eq_refl. cbn. auto.
  - subst. split; [split; eauto|]. process_fields.
    rewrite py_eq_refl, (proj2 (py_eq_false sout PIPE) E1). cbn. auto.
  - destruct (py_eq sout _UNDEFINED) eqn:E3;
      [apply py_eq_true in E3 | apply py_eq_false in E3].
    + subst. split; [split; eauto|]. process_fields. rewrite py_eq_refl. cbn. auto.
    + split; [|reflexivity]. split; [intros [? ?]; discriminate | tauto].
Qed.

(** The [_parts] attribute is [None] in everything the constructor
    builds. *)
Lemma init_fuel_parts fuel cmd args pre stdin stdout stderr kwargs (q : Pipe.t) :
  Pipe.init_fuel fuel cmd args pre stdin stdout stderr kwargs = Ok q ->
  Pipe._parts q = VNone.
Proof.
  destruct fuel as [|fuel]; [discriminate|]. cbn [Pipe.init_fuel]. m_unfold.
  intros H.
  match type of H with
  | match ?x with _ => _ end = _ => destruct x as [[[pre' cmd'] args']|]; [|discriminate]
  end.
  destruct (Process.__init__ _ _ _ _ _ _) as [process|]; [|discriminate].
  unfold Pipe.Runnable__init__, py_assert in H. cbn in H.
  destruct (_ <=? 1); [|discriminate]. by injection H as <-.
Qed.

Lemma start_of_pipe_parts (q : Pipe.t) input w r w' :
  Pipe.start_of (RPipe q) input w = (Ret r, w') ->
  exists q', r = RPipe q' /\ Pipe._parts q' = Pipe._parts q.
Proof.
  cbn [Pipe.start_of]. m_unfold. intros H.
  destruct (Pipe.start_of (Pipe._preceding q) input w) as [[pre| |] w1];
    try discriminate.
  destruct (py_assert _ _); [|discriminate].
  destruct (Process.start _ _ w1) as [[process| |] w2]; try discriminate.
  injection H as <- <-. eexists. split; reflexivity.
Qed.

(** X6. The [parts] property of a pipeline raises [AssertionError] ('not
    inited') on every pipeline the constructor builds, from a template or
    around a preceding runnable, before and after [start]: [_parts] is set
    to [None] at construction and nothing assigns it.  The [parts] of a
    process is the process itself. *)
Theorem pipe_parts_always_raises :
  forall cmd args pre stdin stdout stderr kwargs (q : Pipe.t),
    Pipe.__init__ cmd args pre stdin stdout stderr kwargs = Ok q ->
    Pipe.parts q = Raise (mk_exn AssertionError "not inited")
    /\ forall input w r w',
         Pipe.start q input w = (Ret r, w') ->
         exists q', r = RPipe q'
                    /\ Pipe.parts q' = Raise (mk_exn AssertionError "not inited").
Proof.
  intros cmd args pre stdin stdout stderr kwargs q H.
  apply init_fuel_parts in H.
  split; [unfold Pipe.parts; by rewrite H|].
  intros input w r w' Hs. apply start_of_pipe_parts in Hs as (q' & -> & Hp).
  exists q'. split; [reflexivity|]. unfold Pipe.parts. by rewrite Hp, H.
Qed.

Lemma pipe_parts_always_raises_witness :
  exists q : Pipe.t,
    Pipe.__init__ "a | b" [] None _UNDEFINED _UNDEFINED _UNDEFINED ∅ = Ok q
    /\ Pipe.parts q = Raise (mk_exn AssertionError "not inited")
    /\ forall input w r w',
         Pipe.start q input w = (Ret r, w') ->
         exists q', r = RPipe q'
                    /\ Pipe.parts q' = Raise (mk_exn AssertionError "not inited").
Proof.
  eexists. split; [vm_compute; reflexivity|].
  apply (pipe_parts_always_raises "a | b" [] None _UNDEFINED _UNDEFINED _UNDEFINED ∅).
  vm_compute. reflexivity.
Defined.

(** ** Templates and stages *)

Lemma join_bar_snoc l x :
  l <> [] -> join_bar (l ++ [x]) = join_bar l +:+ String "|" x.
Proof.
  induction l as [|y l IH]; [done|]. intros _.
  destruct l as [|y' l]; [reflexivity|].
  change (join_bar ((y :: y' :: l) ++ [x]))
    with (y +:+ String "|" (join_bar ((y' :: l) ++ [x]))).
  rewrite IH by done.
  change (join_bar (y :: y' :: l)) with (y +:+ String "|" (join_bar (y' :: l))).
  by rewrite append_assoc, append_cons.
Qed.

Lemma prepare_pipe_keeps_templates r r' :
  Pipe._prepare_pipe_of r = Ok r' ->
  Process._cmd <$> stages r' = Process._cmd <$> stages r
  /\ Process._args <$> stages r' = Process._args <$> stages r.
Proof.
  destruct r as [p|q]; cbn [Pipe._prepare_pipe_of]; intros E;
    apply fmap_Ok_inv in E as (x & E & ->).
  - apply Process_prepare_pipe_fields in E as (Hc & Ha & _).
    cbn. by rewrite Hc, Ha.
  - unfold Pipe._prepare_pipe in E. m_unfold.
    destruct (Process._prepare_pipe (Pipe._process q)) as [p1|] eqn:Ep; [|discriminate].
    injection E as <-.
    apply Process_prepare_pipe_fields in Ep as (Hc & Ha & _).
    cbn [stages Pipe._preceding Pipe._process]. rewrite !fmap_app. cbn.
    by rewrite Hc, Ha.
Qed.

Lemma stages_nonempty r : stages r <> [].
Proof.
  destruct r as [p|q]; cbn [stages]; [discriminate|].
  intros H. apply app_eq_nil in H as [_ H]. discriminate.
Qed.

Lemma init_fuel_round_trip fuel : forall cmd args stdin stdout stderr kwargs (q : Pipe.t),
  Pipe.init_fuel fuel cmd args None stdin stdout stderr kwargs = Ok q ->
  join_bar (Process._cmd <$> stages (RPipe q)) = cmd
  /\ Forall (fun c => contains "|" c = false) (Process._cmd <$> stages (RPipe q))
  /\ concat (Process._args <$> stages (RPipe q)) = args.
Proof.
  induction fuel as [|fuel IH]; intros cmd args stdin stdout stderr kwargs q H;
    [discriminate|].
  apply init_fuel_inv in H
    as (preceding_cmd & last_cmd & pre0 & pre & process & Esplit & E0 & E1 & E2 & ->).
  apply rsplit_last_spec in Esplit as [-> Hlast].
  apply Process_init_fields in E2 as (Hc & Ha & _).
  apply prepare_pipe_keeps_templates in E1 as [Hcmds Hargs].
  cbn [stages Pipe._preceding Pipe._process]. rewrite !fmap_app, Hcmds, Hargs.
  cbn [fmap list_fmap]. rewrite Hc, Ha, concat_app. cbn [concat]. rewrite app_nil_r.
  assert (Hpre : join_bar (Process._cmd <$> stages pre0) = preceding_cmd
                 /\ Forall (fun c => contains "|" c = false) (Process._cmd <$> stages pre0)
                 /\ concat (Process._args <$> stages pre0)
                    = slice_to args (_spec_count preceding_cmd)
                 /\ stages pre0 <> []).
  { destruct (contains "|" preceding_cmd) eqn:Hbar.
    - apply fmap_Ok_inv in E0 as (q0 & E0 & ->).
      destruct (IH _ _ _ _ _ _ _ E0) as (H1 & H2 & H3).
      repeat split; try assumption. apply stages_nonempty.
    - apply fmap_Ok_inv in E0 as (p0 & E0 & ->).
      apply Process_init_fields in E0 as (Hc0 & Ha0 & _).
      cbn. rewrite Hc0, Ha0, app_nil_r. repeat split; [|done].
      constructor; [exact Hbar | constructor]. }
  destruct Hpre as (Hj & Hf & Hcat & Hne).
  split; [|split].
  - rewrite join_bar_snoc; [by rewrite Hj|].
    intros Hnil. apply fmap_nil_inv in Hnil. by apply Hne.
  - apply Forall_app. split; [exact Hf | by constructor].
  - rewrite Hcat. apply py_slices_partition.
Qed.

(** X7. In a pipeline built from a template, the templates of the stages
    joined with bars give back the template, no stage template has a bar,
    and the argument tuples of the stages, put end to end, are the
    arguments given: no text and no argument is lost or used twice. *)
Theorem pipe_template_round_trip :
  forall cmd args stdin stdout stderr kwargs (q : Pipe.t),
    Pipe.__init__ cmd args None stdin stdout stderr kwargs = Ok q ->
    join_bar (Process._cmd <$> stages (RPipe q)) = cmd
    /\ Forall (fun c => contains "|" c = false) (Process._cmd <$> stages (RPipe q))
    /\ concat (Process._args <$> stages (RPipe q)) = args.
Proof. intros cmd args stdin stdout stderr kwargs q. apply init_fuel_round_trip. Qed.

Lemma pipe_template_round_trip_witness :
  exists q : Pipe.t,
    Pipe.__init__ "a %s | b %s %s | c" [VStr "x"; VInt 1; VStr "y"; VStr "z"] None
      _UNDEFINED _UNDEFINED _UNDEFINED ∅ = Ok q
    /\ join_bar (Process._cmd <$> stages (RPipe q)) = "a %s | b %s %s | c"
    /\ Forall (fun c => contains "|" c = false) (Process._cmd <$> stages (RPipe q))
    /\ concat (Process._args <$> stages (RPipe q))
       = [VStr "x"; VInt 1; VStr "y"; VStr "z"].
Proof.
  eexists. split; [vm_compute; reflexivity|].
  apply (pipe_template_round_trip "a %s | b %s %s | c"
           [VStr "x"; VInt 1; VStr "y"; VStr "z"] _UNDEFINED _UNDEFINED _UNDEFINED ∅).
  vm_compute. reflexivity.
Defined.

Lemma rsplit_last_none sep s : contains sep s = false -> rsplit_last sep s = None.
Proof.
  induction s as [|c s IH]; [reflexivity|]. cbn [contains rsplit_last].
  intros H. apply orb_false_iff in H as [Hc Hs]. rewrite (IH Hs).
  unfold ascii_eqb in *. apply bool_decide_eq_false_1 in Hc.
  rewrite bool_decide_eq_false_2; [reflexivity | congruence].
Qed.

Lemma rsplit_last_app sep a b :
  contains sep b = false -> rsplit_last sep (a +:+ String sep b) = Some (a, b).
Proof.
  intros Hb. induction a as [|x a IH].
  - change (EmptyString +:+ String sep b) with (String sep b).
    cbn [rsplit_last]. rewrite (rsplit_last_none _ _ Hb).
    unfold ascii_eqb. by rewrite bool_decide_eq_true_2.
  - rewrite append_cons. cbn [rsplit_last]. by rewrite IH.
Qed.

Lemma bound_kwargs_restore (kwargs : gmap string value) stdout stderr :
  kwargs !! "stdin" = None -> kwargs !! "stdout" = None -> kwargs !! "stderr" = None ->
  delete "stdin" (delete "stdout" (delete "stderr"
    (<["stdout" := stdout]> (<["stderr" := stderr]> kwargs)))) = kwargs.
Proof.
  intros Hin Hout Herr. apply map_eq. intros k.
  destruct (decide (k = "stdin")) as [->|]; [by rewrite lookup_delete_eq|].
  rewrite lookup_delete_ne by done.
  destruct (decide (k = "stdout")) as [->|]; [by rewrite lookup_delete_eq|].
  rewrite lookup_delete_ne by done.
  destruct (decide (k = "stderr")) as [->|]; [by rewrite lookup_delete_eq|].
  by rewrite lookup_delete_ne, !lookup_insert_ne by done.
Qed.

(** X8. A template with one bar builds what chaining builds:
    [Pipe('a|b', *args, stdin=i, stdout=o, stderr=e, **kwargs)] is, result
    for result, [Process('a', *args[:n], stdin=i, stderr=e, **kwargs)]
    followed by [.pipe('b', *args[n:], stdout=o, stderr=e, **kwargs)], where
    [n] is the placeholder count of ['a']. *)
Theorem one_bar_template_is_chaining :
  forall (a b : string) (args : list value) (stdin stdout stderr : value)
         (kwargs : gmap string value),
    contains "|" a = false -> contains "|" b = false ->
    kwargs !! "stdin" = None -> kwargs !! "stdout" = None ->
    kwargs !! "stderr" = None -> kwargs !! "_preceding" = None ->
    let n := Z.to_nat (_spec_count a) in
    RPipe <$> Pipe.__init__ (a +:+ String "|" b) args None stdin stdout stderr kwargs
    = (p ← Process.__init__ a (take n args) stdin _UNDEFINED stderr kwargs;
       Runnable.pipe (RProcess p) b (drop n args)
         (<["stdout" := stdout]> (<["stderr" := stderr]> kwargs))).
Proof.
  intros a b args stdin stdout stderr kwargs Ha Hb Hin Hout Herr Hpre n.
  unfold Pipe.__init__ at 1. cbn [Pipe.init_fuel].
  rewrite contains_app, Ha. cbn [contains orb].
  assert (Hbar : ascii_eqb "|" "|" = true) by reflexivity. rewrite Hbar. cbn [orb].
  unfold rsplit1. rewrite (rsplit_last_app _ _ _ Hb), Ha.
  rewrite slice_to_take, slice_from_drop by apply _spec_count_nonneg. fold n.
  unfold Runnable.pipe, Pipe.new, Pipe.__init__. cbn [Pipe.init_fuel].
  rewrite (bound_kwargs_restore _ _ _ Hin Hout Herr).
  assert (L1 : <["stdout" := stdout]> (<["stderr" := stderr]> kwargs) !! "_preceding"
               = None) by (by rewrite !lookup_insert_ne by done).
  assert (L2 : <["stdout" := stdout]> (<["stderr" := stderr]> kwargs) !! "stdin"
               = None) by (by rewrite !lookup_insert_ne by done).
  assert (L3 : <["stdout" := stdout]> (<["stderr" := stderr]> kwargs) !! "stdout"
               = Some stdout) by apply lookup_insert_eq.
  assert (L4 : <["stdout" := stdout]> (<["stderr" := stderr]> kwargs) !! "stderr"
               = Some stderr)
    by (rewrite lookup_insert_ne by done; apply lookup_insert_eq).
  rewrite L1, L2, L3, L4.
  cbn [default]. rewrite py_eq_refl. unfold py_assert. m_unfold.
  destruct (Process.__init__ a _ _ _ _ _) as [p|]; [|reflexivity].
  destruct (Pipe._prepare_pipe_of (RProcess p)) as [pre|]; [|reflexivity].
  destruct (Process.__init__ b _ _ _ _ _) as [process|]; [|reflexivity].
  destruct (Pipe.Runnable__init__ _); reflexivity.
Qed.

Lemma one_bar_template_is_chaining_witness :
  RPipe <$> Pipe.__init__ ("a %s " +:+ String "|" " b") [VStr "x"] None
              INTERACT CAPTURE STDOUT ∅
  = (p ← Process.__init__ "a %s " (take (Z.to_nat (_spec_count "a %s ")) [VStr "x"])
           INTERACT _UNDEFINED STDOUT ∅;
     Runnable.pipe (RProcess p) " b" (drop (Z.to_nat (_spec_count "a %s ")) [VStr "x"])
       (<["stdout" := CAPTURE]> (<["stderr" := STDOUT]> ∅))).
Proof.
  apply (one_bar_template_is_chaining "a %s " " b" [VStr "x"] INTERACT CAPTURE STDOUT ∅);
    reflexivity.
Defined.

(** ** Starting a process *)

Lemma stdin_handle_raises_assertion self input e :
  Process.stdin_handle self input = Raise e -> exn_type e = AssertionError.
Proof.
  unfold Process.stdin_handle, py_assert. m_unfold.
  repeat match goal with
         | |- context [if ?c then _ else _] => destruct c
         | |- context [match ?v with VNone => _ | _ => _ end] => destruct v
         end; intros H; try discriminate; by injection H as <-.
Qed.

Lemma out_handle_raises_assertion v d ip e :
  Process._out_handle v d ip = Raise e -> exn_type e = AssertionError.
Proof.
  unfold Process._out_handle, py_assert. m_unfold.
  repeat match goal with
         | |- context [if ?c then _ else _] => destruct c
         | |- context [match ?v with VNone => _ | _ => _ end] => destruct v
         end; intros H; try discriminate; by injection H as <-.
Qed.

Lemma stdin_handle_input self input h :
  input <> VNone -> Process.stdin_handle self input = Ok h -> h = SUBPROCESS_PIPE.
Proof.
  intros Hin. unfold Process.stdin_handle, py_assert.
  rewrite (proj2 (py_eq_false input VNone) Hin). cbn [negb orb]. m_unfold.
  destruct (py_in _ _); [|discriminate]. intros H. by injection H as <-.
Qed.

(** The threads [launch] starts, whatever the input. *)
Lemma launch_inv (self : Process.t) pid input p_in w :
  (input <> VNone -> p_in = VFile (ChildPipe pid Stdin)) ->
  exists new w',
    Process.launch self pid input p_in w
    = (Ret (Process.set_threads (Process._threads self ++ new) self), w')
    /\ (fun t => (th_target t, th_args t)) <$> new = launched self pid input
    /\ Forall (fun t => th_daemon t = true /\ th_name t = "spawn_aux") new
    /\ w_popens w' = w_popens w /\ w_env w' = w_env w
    /\ w_log w' = (CallThreadStart <$> reverse new) ++ w_log w.
Proof.
  intros Hp.
  destruct self as [cmd args cl sin sout serr kw po ths co ce ip pp ii oo].
  unfold Process.launch, Process._parallel, Process.bound_write, thread_spawn, launched.
  unfold Process.set_threads. process_fields.
  assert (Hnil : forall l : list Thread, l = l ++ []) by (intros; by rewrite app_nil_r).
  destruct (py_eq input VNone) eqn:Ei; cbn [negb].
  - m_unfold. process_fields.
    destruct (py_eq sout CAPTURE); process_fields;
      destruct (py_eq serr CAPTURE); process_fields;
      rewrite <- ?app_assoc;
      first [ exists [], w; rewrite <- Hnil; split; [reflexivity|]
            | eexists _, _; split; [reflexivity|] ];
      (split; [reflexivity|]);
      (split; [repeat constructor|]); repeat split.
  - apply py_eq_false in Ei. rewrite (Hp Ei). m_unfold. process_fields.
    destruct (py_eq sout CAPTURE); process_fields;
      destruct (py_eq serr CAPTURE); process_fields;
      rewrite <- ?app_assoc;
      eexists _, _; (split; [reflexivity|]);
      (split; [reflexivity|]);
      (split; [repeat constructor|]); repeat split.
Qed.

(** What a [start] that returns has done. *)
Lemma Process_start_inv (self : Process.t) input w self' w' :
  Process.start self input w = (Ret self', w') ->
  exists hin hout herr new,
    let pid := length (w_popens w) in
    let req := mk_req (Process._cmdline self) hin hout herr (Process._kwargs self) in
    Process._popen self = None
    /\ Process.stdin_handle self input = Ok hin
    /\ Process._out_handle (Process._stdout self) (PFile SysStdout)
         (Process._init_pipe self) = Ok hout
    /\ Process._out_handle (Process._stderr self) (PFile SysStderr)
         (Process._init_pipe self) = Ok herr
    /\ env_spawn (w_env w) (w_log w) req = None
    /\ self' = Process.set_threads (Process._threads self ++ new)
                 (Process.expose (Process.set_popen (Some pid) self)
                    (pipe_value pid Stdin hin) (pipe_value pid Stdout hout)
                    (pipe_value pid Stderr herr))
    /\ (fun t => (th_target t, th_args t)) <$> new = launched self pid input
    /\ Forall (fun t => th_daemon t = true /\ th_name t = "spawn_aux") new
    /\ w_popens w' = w_popens w ++ [mk_popen req None]
    /\ w_env w' = w_env w
    /\ w_log w' = (CallThreadStart <$> reverse new) ++ CallPopen req :: w_log w.
Proof.
  unfold Process.start. m_unfold. intros H.
  destruct (Process._popen self) as [pid0|] eqn:Epo; [discriminate|].
  assert (Hb : bool_decide (is_Some (@None nat)) = false) by reflexivity.
  rewrite Hb in H. cbn [negb py_assert] in H. cbv beta iota in H.
  destruct (Process.stdin_handle self input) as [hin|] eqn:Ein; [|discriminate].
  destruct (Process._out_handle (Process._stdout self) _ _) as [hout|] eqn:Eout;
    [|discriminate].
  destruct (Process._out_handle (Process._stderr self) _ _) as [herr|] eqn:Eerr;
    [|discriminate].
  set (req := mk_req (Process._cmdline self) hin hout herr (Process._kwargs self)) in *.
  unfold popen_new in H.
  destruct (env_spawn (w_env w) (w_log w) req) eqn:Esp; [discriminate|].
  rewrite !popen_stream_new in H. cbn [req_stdin req_stdout req_stderr req] in H.
  set (pid := length (w_popens w)) in *.
  set (exposed := Process.expose _ _ _ _) in H.
  destruct (launch_inv exposed pid input
              (pipe_value pid Stdin hin)
              (mk_world (w_env w) (CallPopen req :: w_log w)
                 (w_popens w ++ [mk_popen req None]) (w_nthreads w)))
    as (new & w2 & Hl & Ht & Hd & Hp & He & Hlog).
  { intros Hne. by rewrite (stdin_handle_input _ _ _ Hne Ein). }
  change (match hin with SUBPROCESS_PIPE => VFile (ChildPipe pid Stdin) | _ => VNone end)
    with (pipe_value pid Stdin hin) in H.
  rewrite Hl in H. injection H as <- <-.
  destruct (expose_fields (Process.set_popen (Some pid) self)
              (pipe_value pid Stdin hin) (pipe_value pid Stdout hout)
              (pipe_value pid Stderr herr)) as (Eth & Eso & Ese & _).
  subst exposed. cbn [Process.set_popen Process._threads Process._stdout
                        Process._stderr] in Eth, Eso, Ese.
  exists hin, hout, herr, new. cbn zeta. unfold pipe_value in *.
  split; [reflexivity|]. do 4 (split; [first [assumption | reflexivity]|]).
  split; [by rewrite Eth|].
  split; [unfold launched in *; rewrite Eso, Ese in Ht; exact Ht|].
  repeat split; assumption.
Qed.

Lemma Process_start_popen (self : Process.t) input w self' w' :
  Process.start self input w = (Ret self', w') ->
  Process._popen self' = Some (length (w_popens w)).
Proof.
  intros H. apply Process_start_inv in H
    as (hin & hout & herr & new & _ & _ & _ & _ & _ & -> & _).
  destruct (expose_fields (Process.set_popen (Some (length (w_popens w))) self)
              (pipe_value (length (w_popens w)) Stdin hin)
              (pipe_value (length (w_popens w)) Stdout hout)
              (pipe_value (length (w_popens w)) Stderr herr)) as (_ & _ & _ & Epo).
  unfold Process.set_threads. process_fields. exact Epo.
Qed.

(** X9. [Process.start] never blocks.  When it returns, exactly one child
    has been spawned, with the process's resolved argv and spawn options,
    and its handle is recorded in the process.  When it raises, no child has
    been added and no thread started: either an assertion failed and the
    world is untouched, or [Popen] itself raised. *)
Theorem start_outcomes :
  forall (self : Process.t) (input : value) (w : World),
    match Process.start self input w with
    | (Ret self', w') =>
        exists req,
          w_popens w' = w_popens w ++ [mk_popen req None]
          /\ Process._popen self' = Some (length (w_popens w))
          /\ req_args req = Process._cmdline self
          /\ req_kwargs req = Process._kwargs self
    | (Throw e, w') =>
        w_popens w' = w_popens w /\ w_nthreads w' = w_nthreads w
        /\ ((exn_type e = AssertionError /\ w' = w)
            \/ exists req, env_spawn (w_env w) (w_log w) req = Some e)
    | (Hang, _) => False
    end.
Proof.
  intros self input w.
  destruct (Process.start self input w) as [[self'|e|] w'] eqn:E.
  - pose proof (Process_start_popen _ _ _ _ _ E) as Hpo.
    apply Process_start_inv in E
      as (hin & hout & herr & new & _ & _ & _ & _ & _ & _ & _ & _ & Hp & _).
    eexists. split; [exact Hp|]. split; [exact Hpo|]. split; reflexivity.
  - unfold Process.start in E. m_unfold.
    destruct (Process._popen self) as [pid0|].
    { cbn in E. injection E as <- <-. repeat split. left. by split. }
    assert (Hb : bool_decide (is_Some (@None nat)) = false) by reflexivity.
    rewrite Hb in E. cbn [negb py_assert] in E. cbv beta iota in E.
    destruct (Process.stdin_handle self input) as [hin|e1] eqn:Ein.
    2:{ injection E as <- <-. repeat split. left.
        split; [by eapply stdin_handle_raises_assertion | reflexivity]. }
    destruct (Process._out_handle (Process._stdout self) _ _) as [hout|e1] eqn:Eout.
    2:{ injection E as <- <-. repeat split. left.
        split; [by eapply out_handle_raises_assertion | reflexivity]. }
    destruct (Process._out_handle (Process._stderr self) _ _) as [herr|e1] eqn:Eerr.
    2:{ injection E as <- <-. repeat split. left.
        split; [by eapply out_handle_raises_assertion | reflexivity]. }
    unfold popen_new in E.
    destruct (env_spawn (w_env w) (w_log w) _) as [e1|] eqn:Esp.
    { injection E as <- <-. repeat split. right. eauto. }
    rewrite !popen_stream_new in E. cbn [req_stdin req_stdout req_stderr] in E.
    match type of E with
    | Process.launch ?x ?pid ?i ?pin ?w1 = _ =>
        destruct (launch_inv x pid i pin w1) as (new & w2 & Hl & _)
    end.
    { intros Hne. by rewrite (stdin_handle_input _ _ _ Hne Ein). }
    rewrite Hl in E. discriminate.
  - unfold Process.start in E. m_unfold.
    destruct (Process._popen self) as [pid0|]; [discriminate|].
    assert (Hb : bool_decide (is_Some (@None nat)) = false) by reflexivity.
    rewrite Hb in E. cbn [negb py_assert] in E. cbv beta iota in E.
    destruct (Process.stdin_handle self input) as [hin|e1] eqn:Ein; [|discriminate].
    destruct (Process._out_handle (Process._stdout self) _ _) as [hout|e1];
      [|discriminate].
    destruct (Process._out_handle (Process._stderr self) _ _) as [herr|e1];
      [|discriminate].
    unfold popen_new in E.
    destruct (env_spawn (w_env w) (w_log w) _) as [e1|]; [discriminate|].
    rewrite !popen_stream_new in E. cbn [req_stdin req_stdout req_stderr] in E.
    match type of E with
    | Process.launch ?x ?pid ?i ?pin ?w1 = _ =>
        destruct (launch_inv x pid i pin w1) as (new & w2 & Hl & _)
    end.
    { intros Hne. by rewrite (stdin_handle_input _ _ _ Hne Ein). }
    rewrite Hl in E. discriminate.
Qed.

(** X10. [start] works once: on a process that a [start] has returned, any
    further [start] raises [AssertionError] ('already inited') and leaves
    the world as it is. *)
Theorem start_twice_raises :
  forall (self : Process.t) (input : value) (w : World) self' w',
    Process.start self input w = (Ret self', w') ->
    forall input2 w2,
      Process.start self' input2 w2
      = (Throw (mk_exn AssertionError "already inited"), w2).
Proof.
  intros self input w self' w' H input2 w2.
  apply Process_start_popen in H. unfold Process.start. rewrite H. reflexivity.
Qed.

Lemma start_twice_raises_witness :
  exists self' w',
    Process.start cat_process VNone world0 = (Ret self', w')
    /\ forall input2 w2,
         Process.start self' input2 w2
         = (Throw (mk_exn AssertionError "already inited"), w2).
Proof.
  do 2 eexists. split; [vm_compute; reflexivity|].
  eapply (start_twice_raises cat_process VNone world0). vm_compute. reflexivity.
Defined.

Lemma Process_init_cmdline cmd args stdin stdout stderr kwargs p :
  Process.__init__ cmd args stdin stdout stderr kwargs = Ok p ->
  cmdline cmd args = Ok (Process._cmdline p)
  /\ Process._threads p = [] /\ Process._captured_stdout p = VNone
  /\ Process._captured_stderr p = VNone /\ Process._pipe p = VNone
  /\ Process._input p = VNone /\ Process._output p = VNone.
Proof.
  unfold Process.__init__, Process.Runnable__init__, py_assert. m_unfold.
  intros H.
  destruct (cmdline cmd args) as [cl|]; [|discriminate].
  repeat match type of H with
         | match ?x with _ => _ end = _ => destruct x; try discriminate
         end.
  injection H as <-. repeat split.
Qed.

(** X11. A process constructed with at least one positional argument has
    [None] as its resolved argv, and a [start] that returns has handed
    [None] to [Popen] as the argument vector. *)
Theorem arguments_leave_no_argv :
  forall (cmd : string) (a : value) (args : list value) (kw : gmap string value)
         (p : Process.t),
    Process.new cmd (a :: args) kw = Ok p ->
    Process._cmdline p = RetNone
    /\ forall input w self' w',
         Process.start p input w = (Ret self', w') ->
         exists req,
           w_popens w' = w_popens w ++ [mk_popen req None]
           /\ req_args req = RetNone.
Proof.
  intros cmd a args kw p H. unfold Process.new in H.
  apply Process_init_cmdline in H as (Hcl & _).
  assert (Hnone : Process._cmdline p = RetNone).
  { unfold cmdline in Hcl. m_unfold.
    destruct (cmdline_loop _ _ _ _); [|discriminate]. by injection Hcl as <-. }
  split; [exact Hnone|].
  intros input w self' w' Hs.
  apply Process_start_inv in Hs
    as (hin & hout & herr & new & _ & _ & _ & _ & _ & _ & _ & _ & Hp & _).
  eexists. split; [exact Hp|]. exact Hnone.
Qed.

Lemma arguments_leave_no_argv_witness :
  exists p : Process.t,
    Process.new "echo %s" [VStr "hi"] ∅ = Ok p
    /\ Process._cmdline p = RetNone
    /\ forall input w self' w',
         Process.start p input w = (Ret self', w') ->
         exists req,
           w_popens w' = w_popens w ++ [mk_popen req None]
           /\ req_args req = RetNone.
Proof.
  eexists. split; [vm_compute; reflexivity|].
  apply (arguments_leave_no_argv "echo %s" (VStr "hi") [] ∅). vm_compute. reflexivity.
Defined.

(** X12. The [PIPE] mode is refused on a process that was never chained: for
    a process built with [stdout=PIPE] or [stderr=PIPE], [start] raises
    [AssertionError] and spawns nothing. *)
Theorem unchained_pipe_mode_refused :
  forall (cmd : string) (args : list value) (kw : gmap string value) (p : Process.t),
    Process.new cmd args kw = Ok p ->
    kw !! "stdout" = Some PIPE \/ kw !! "stderr" = Some PIPE ->
    forall input w,
      exists e, Process.start p input w = (Throw e, w)
                /\ exn_type e = AssertionError.
Proof.
  intros cmd args kw p H Hpipe input w. unfold Process.new in H.
  apply Process_init_fields in H as (_ & _ & _ & Hout & Herr & _ & Hip & Hpo).
  unfold Process.start. rewrite Hpo, Hout, Herr, Hip. m_unfold.
  assert (Hb : bool_decide (is_Some (@None nat)) = false) by reflexivity.
  rewrite Hb. cbn [negb py_assert]. cbv beta iota.
  destruct (Process.stdin_handle p input) as [hin|e] eqn:Ein.
  2:{ exists e. split; [reflexivity | by eapply stdin_handle_raises_assertion]. }
  destruct Hpipe as [-> | ->]; cbn [default].
  - eexists. split; reflexivity.
  - destruct (Process._out_handle _ (PFile SysStdout) false) as [hout|e] eqn:Eout.
    + eexists. split; reflexivity.
    + exists e. split; [reflexivity | by eapply out_handle_raises_assertion].
Qed.

Lemma unchained_pipe_mode_refused_witness :
  exists p : Process.t,
    Process.new "cat" [] (<["stdout" := PIPE]> ∅) = Ok p
    /\ forall input w,
         exists e, Process.start p input w = (Throw e, w)
                   /\ exn_type e = AssertionError.
Proof.
  eexists. split; [vm_compute; reflexivity|].
  apply (unchained_pipe_mode_refused "cat" [] (<["stdout" := PIPE]> ∅));
    [vm_compute; reflexivity | left; reflexivity].
Defined.

(** X13. On a process that has not been started, [poll], [wait(timeout)],
    [send_signal], [terminate] and [kill] all raise [AttributeError] and
    leave the world as it is; this holds for every process the constructor
    builds. *)
Theorem methods_before_start_raise :
  forall (cmd : string) (args : list value) (kw : gmap string value) (p : Process.t),
    Process.new cmd args kw = Ok p ->
    forall (w : World) (v : value),
      (exists e, Process.poll p w = (Throw e, w) /\ exn_type e = AttributeError)
      /\ (exists e, Process.wait p (Some v) w = (Throw e, w)
                    /\ exn_type e = AttributeError)
      /\ (exists e, Process.send_signal p v w = (Throw e, w)
                    /\ exn_type e = AttributeError)
      /\ (exists e, Process.terminate p w = (Throw e, w)
                    /\ exn_type e = AttributeError)
      /\ (exists e, Process.kill p w = (Throw e, w) /\ exn_type e = AttributeError).
Proof.
  intros cmd args kw p H w v. unfold Process.new in H.
  apply Process_init_fields in H as (_ & _ & _ & _ & _ & _ & _ & Hpo).
  unfold Process.poll, Process.wait, Process.send_signal, Process.terminate,
    Process.kill, Process.the_popen.
  rewrite Hpo. repeat split; eexists; split; reflexivity.
Qed.

Lemma methods_before_start_raise_witness :
  exists p : Process.t,
    Process.new "cat" [] ∅ = Ok p
    /\ forall (w : World) (v : value),
         (exists e, Process.poll p w = (Throw e, w) /\ exn_type e = AttributeError)
         /\ (exists e, Process.wait p (Some v) w = (Throw e, w)
                       /\ exn_type e = AttributeError)
         /\ (exists e, Process.send_signal p v w = (Throw e, w)
                       /\ exn_type e = AttributeError)
         /\ (exists e, Process.terminate p w = (Throw e, w)
                       /\ exn_type e = AttributeError)
         /\ (exists e, Process.kill p w = (Throw e, w)
                       /\ exn_type e = AttributeError).
Proof.
  eexists. split; [vm_compute; reflexivity|].
  apply (methods_before_start_raise "cat" [] ∅). vm_compute. reflexivity.
Defined.

(** ** Handles, captured output and joins *)

Lemma expose_handles (self : Process.t) a b c :
  let self' := Process.expose self a b c in
  Process._input self'
  = (if py_eq (Process._stdin self) INTERACT then a else Process._input self)
  /\ Process._output self'
     = (if py_eq (Process._stdin self) INTERACT then Process._output self
        else if py_eq (Process._stdout self) INTERACT then b
        else if py_eq (Process._stderr self) INTERACT then c
        else Process._output self)
  /\ Process._pipe self'
     = (if Process._init_pipe self
        then if py_eq (Process._stdout self) PIPE then b
             else if py_eq (Process._stderr self) PIPE then c
             else Process._pipe self
        else Process._pipe self)
  /\ Process._captured_stdout self' = Process._captured_stdout self
  /\ Process._captured_stderr self' = Process._captured_stderr self
  /\ Process._cmdline self' = Process._cmdline self
  /\ Process._stdin self' = Process._stdin self.
Proof.
  destruct self as [cmd args cl sin sout serr kw po ths co ce ip pp ii oo].
  unfold Process.expose, Process.set_input, Process.set_output, Process.set_pipe.
  process_fields.
  destruct (py_eq sin INTERACT); process_fields;
    [|destruct (py_eq sout INTERACT); process_fields;
      [|destruct (py_eq serr INTERACT); process_fields]];
    (destruct ip; process_fields;
     [destruct (py_eq sout PIPE); process_fields;
      [|destruct (py_eq serr PIPE); process_fields]|]);
    repeat split.
Qed.

Lemma stdin_handle_interact self input h :
  Process._stdin self = INTERACT -> Process.stdin_handle self input = Ok h ->
  h = SUBPROCESS_PIPE.
Proof.
  intros Hs. unfold Process.stdin_handle, py_assert. rewrite Hs, py_eq_refl, orb_true_r.
  m_unfold. destruct (py_in _ _); [|discriminate]. intros H. by injection H as <-.
Qed.

Lemma out_handle_interact d ip h :
  Process._out_handle INTERACT d ip = Ok h -> h = SUBPROCESS_PIPE.
Proof. cbn. intros H. by injection H as <-. Qed.

(** X14. After a [start] that returns, on a process with no handle exposed
    before, at most one of [input] and [output] is set.  With stdin in
    Interact mode [input] is the child's stdin pipe, [output] stays [None]
    even if stdout or stderr is Interact too, and [send(data)] writes [data]
    to that pipe and flushes it.  Otherwise [input] is [None], [send] raises
    [AttributeError], and [output] is the child's stdout pipe if stdout is
    Interact, else its stderr pipe if stderr is Interact, else [None]. *)
Theorem start_exposes_one_handle :
  forall (self : Process.t) (input : value) (w : World) self' w',
    Process._input self = VNone -> Process._output self = VNone ->
    Process.start self input w = (Ret self', w') ->
    let pid := length (w_popens w) in
    if py_eq (Process._stdin self) INTERACT
    then Runnable.input (RProcess self') = VFile (ChildPipe pid Stdin)
         /\ Runnable.output (RProcess self') = VNone
         /\ forall data,
              Runnable.send (RProcess self') data
              = Ok [Runnable.HWrite (ChildPipe pid Stdin) data;
                    Runnable.HFlush (ChildPipe pid Stdin)]
    else Runnable.input (RProcess self') = VNone
         /\ (forall data, exists e,
               Runnable.send (RProcess self') data = Raise e
               /\ exn_type e = AttributeError)
         /\ Runnable.output (RProcess self')
            = if py_eq (Process._stdout self) INTERACT then VFile (ChildPipe pid Stdout)
              else if py_eq (Process._stderr self) INTERACT
                   then VFile (ChildPipe pid Stderr)
                   else VNone.
Proof.
  intros self input w self' w' Hi Ho H pid.
  apply Process_start_inv in H
    as (hin & hout & herr & new & _ & Ein & Eout & Eerr & _ & -> & _).
  fold pid.
  destruct (expose_handles (Process.set_popen (Some pid) self)
              (pipe_value pid Stdin hin) (pipe_value pid Stdout hout)
              (pipe_value pid Stderr herr)) as (Hin' & Hout' & _).
  unfold Runnable.input, Runnable.output, Runnable.send, Runnable.input,
    Pipe.input_of, Pipe.output_of.
  unfold Process.set_threads. process_fields.
  cbn [Process.set_popen Process._stdin Process._stdout Process._stderr
       Process._input Process._output] in Hin', Hout'.
  rewrite Hin', Hout', Hi, Ho.
  destruct (py_eq (Process._stdin self) INTERACT) eqn:E1.
  - apply py_eq_true in E1. rewrite (stdin_handle_interact _ _ _ E1 Ein).
    cbn [pipe_value]. repeat split.
  - split; [reflexivity|]. split; [intros data; eexists; split; reflexivity|].
    destruct (py_eq (Process._stdout self) INTERACT) eqn:E2.
    + apply py_eq_true in E2. rewrite E2 in Eout.
      by rewrite (out_handle_interact _ _ _ Eout).
    + destruct (py_eq (Process._stderr self) INTERACT) eqn:E3; [|reflexivity].
      apply py_eq_true in E3. rewrite E3 in Eerr.
      by rewrite (out_handle_interact _ _ _ Eerr).
Qed.

Lemma start_exposes_one_handle_witness :
  exists p self' w',
    Process.new "cat" [] kw_two_interactive = Ok p
    /\ Process.start p VNone world0 = (Ret self', w')
    /\ Runnable.input (RProcess self') = VFile (ChildPipe 0 Stdin)
    /\ Runnable.output (RProcess self') = VNone
    /\ forall data,
         Runnable.send (RProcess self') data
         = Ok [Runnable.HWrite (ChildPipe 0 Stdin) data;
               Runnable.HFlush (ChildPipe 0 Stdin)].
Proof.
  do 3 eexists. split; [vm_compute; reflexivity|].
  split; [vm_compute; reflexivity|].
  match goal with
  | |- Runnable.input (RProcess ?s) = _ /\ _ =>
      eapply (start_exposes_one_handle
                (Process.mk "cat" [] (RetList ["cat"]) INTERACT INTERACT _UNDEFINED ∅
                   None [] VNone VNone false VNone VNone VNone)
                VNone world0 s);
      [reflexivity | reflexivity | vm_compute; reflexivity]
  end.
Defined.

Lemma popen_wait_env pid timeout w :
  w_env (snd (popen_wait pid timeout w)) = w_env w.
Proof.
  unfold popen_wait, popen_returncode, os_wait, set_returncode. m_unfold.
  destruct (w_popens w !! pid) as [p|]; [|reflexivity].
  destruct (po_returncode p); [reflexivity|]. cbn.
  destruct (env_wait _ _ _ _); reflexivity.
Qed.

(** What a [join_all] that returns has done: every thread joined, in order,
    and the output its [capture] closures read stored in the process. *)
Lemma join_all_inv ts : forall (self : Process.t) w self' w',
  Process.join_all ts self w = (Ret self', w') ->
  w_env w' = w_env w /\ w_popens w' = w_popens w
  /\ w_log w' = (CallJoin <$> reverse (th_id <$> ts)) ++ w_log w
  /\ Process._captured_stdout self'
     = foldl (capture_effect (w_env w) Stdout) (Process._captured_stdout self)
         (th_target <$> ts)
  /\ Process._captured_stderr self'
     = foldl (capture_effect (w_env w) Stderr) (Process._captured_stderr self)
         (th_target <$> ts)
  /\ Process._cmdline self' = Process._cmdline self.
Proof.
  induction ts as [|th ts IH]; intros self w self' w' H.
  - injection H as <- <-. repeat split.
  - cbn [Process.join_all] in H. unfold thread_join, Process.thread_effect in H.
    m_unfold.
    destruct (env_join (w_env w) (w_log w) (th_id th)); try discriminate.
    apply IH in H as (He & Hp & Hl & Hso & Hse & Hcl). cbn in He, Hp, Hl.
    split; [exact He|]. split; [exact Hp|].
    split.
    { rewrite Hl. cbn [fmap list_fmap]. rewrite reverse_cons, fmap_app, <- app_assoc.
      reflexivity. }
    cbn [fmap list_fmap foldl].
    rewrite Hso, Hse, Hcl. cbn [w_env].
    destruct (th_target th) as [f|pid [ | | ]]; destruct self; repeat split.
Qed.

(** X15. After a [start] that returns on a fresh process, a [wait] that
    returns gives a completion record with the process's resolved argv,
    with everything the child wrote to its stdout when stdout is Capture
    and [None] otherwise, and likewise for stderr. *)
Theorem wait_returns_captured_output :
  forall (self : Process.t) (input : value) (w : World) self' w1
         (timeout : value) (w2 : World) self'' record w3,
    Process._threads self = [] ->
    Process._captured_stdout self = VNone ->
    Process._captured_stderr self = VNone ->
    Process.start self input w = (Ret self', w1) ->
    w_env w2 = w_env w ->
    Process.wait self' (Some timeout) w2 = (Ret (self'', record), w3) ->
    let pid := length (w_popens w) in
    cp_args record = Process._cmdline self
    /\ cp_stdout record
       = (if py_eq (Process._stdout self) CAPTURE
          then VStr (env_read (w_env w) pid Stdout) else VNone)
    /\ cp_stderr record
       = (if py_eq (Process._stderr self) CAPTURE
          then VStr (env_read (w_env w) pid Stderr) else VNone).
Proof.
  intros self input w self' w1 timeout w2 self'' record w3 Hth Hso Hse Hs Henv Hw pid.
  pose proof (Process_start_popen _ _ _ _ _ Hs) as Hpo. fold pid in Hpo.
  apply Process_start_inv in Hs
    as (hin & hout & herr & new & _ & _ & _ & _ & _ & Hself & Ht & _).
  fold pid in Hself, Ht.
  destruct (expose_handles (Process.set_popen (Some pid) self)
              (pipe_value pid Stdin hin) (pipe_value pid Stdout hout)
              (pipe_value pid Stderr herr)) as (_ & _ & _ & Eco & Ece & Ecl & _).
  cbn [Process.set_popen Process._captured_stdout Process._captured_stderr
       Process._cmdline] in Eco, Ece, Ecl.
  assert (Hths : Process._threads self' = new).
  { rewrite Hself, Hth. unfold Process.set_threads. by process_fields. }
  assert (Hco : Process._captured_stdout self' = VNone).
  { rewrite Hself. unfold Process.set_threads. process_fields. by rewrite Eco. }
  assert (Hce : Process._captured_stderr self' = VNone).
  { rewrite Hself. unfold Process.set_threads. process_fields. by rewrite Ece. }
  assert (Hcl : Process._cmdline self' = Process._cmdline self).
  { rewrite Hself. unfold Process.set_threads. process_fields. by rewrite Ecl. }
  unfold Process.wait, Process.the_popen in Hw. rewrite Hpo in Hw.
  unfold mbind, mret, M_bind, M_ret, m_bind, m_ret in Hw.
  assert (Htargets : th_target <$> new = fst <$> launched self pid input).
  { rewrite <- Ht, <- list_fmap_compose. reflexivity. }
  pose proof (popen_wait_env pid timeout w2) as Hwenv.
  destruct (popen_wait pid timeout w2) as [[v| |] wa]; try discriminate.
  cbn [snd] in Hwenv.
  destruct (Process.join_all _ _ wa) as [[joined| |] wb] eqn:Ej; try discriminate.
  apply join_all_inv in Ej as (_ & _ & _ & Jso & Jse & Jcl).
  unfold popen_returncode in Hw.
  destruct (w_popens wb !! pid); [|discriminate].
  injection Hw as <- <- <-. cbn [cp_args cp_stdout cp_stderr].
  rewrite Jcl, Jso, Jse, Hths, Htargets, Hco, Hce, Hcl, Hwenv, Henv.
  split; [reflexivity|].
  unfold launched.
  destruct (py_eq input VNone), (py_eq (Process._stdout self) CAPTURE),
    (py_eq (Process._stderr self) CAPTURE); split; reflexivity.
Qed.

Lemma wait_returns_captured_output_witness :
  exists p self' w1 self'' record w3,
    Process.new "echo hello" [] (<["stdout" := CAPTURE]> ∅) = Ok p
    /\ Process.start p VNone world0 = (Ret self', w1)
    /\ Process.wait self' (Some VNone) w1 = (Ret (self'', record), w3)
    /\ cp_args record = RetList ["echo"; "hello"]
    /\ cp_stdout record = VStr "out"
    /\ cp_stderr record = VNone.
Proof.
  do 6 eexists. split; [vm_compute; reflexivity|].
  split; [vm_compute; reflexivity|].
  match goal with
  | |- Process.wait ?s _ ?w = _ /\ _ => pose (started := s); pose (w1 := w)
  end.
  split; [vm_compute; reflexivity|].
  match goal with
  | |- cp_args ?r = _ /\ _ =>
      eapply (wait_returns_captured_output
                (Process.mk "echo hello" [] (RetList ["echo"; "hello"]) _UNDEFINED CAPTURE
                   _UNDEFINED ∅ None [] VNone VNone false VNone VNone VNone)
                VNone world0 started w1 VNone w1 _ r);
      [reflexivity | reflexivity | reflexivity | vm_compute; reflexivity
      | reflexivity | vm_compute; reflexivity]
  end.
Defined.

(** X16. [Process.wait(timeout)] on a started process first waits for the
    child: if that raises (a timeout) or never returns, so does [wait], and
    no thread has been joined.  When [wait] returns, every tracked thread
    has been joined, in the order the threads were started, after the wait
    for the child.  A pipeline's [wait] does exactly what the [wait] of its
    terminal process does to the world, so it joins the threads of the
    terminal process only. *)
Theorem wait_joins_after_exit :
  forall (self : Process.t) (pid : nat) (timeout : value) (w : World),
    Process._popen self = Some pid ->
    match popen_wait pid timeout w with
    | (Ret _, w1) =>
        forall self' record w',
          Process.wait self (Some timeout) w = (Ret (self', record), w') ->
          w_log w' = (CallJoin <$> reverse (th_id <$> Process._threads self)) ++ w_log w1
    | (Throw e, w1) => Process.wait self (Some timeout) w = (Throw e, w1)
    | (Hang, w1) => Process.wait self (Some timeout) w = (Hang, w1)
    end
    /\ forall (q : Pipe.t),
         Pipe._process q = self ->
         snd (Pipe.wait q (Some timeout) w) = snd (Process.wait self (Some timeout) w).
Proof.
  intros self pid timeout w Hpo. split.
  - unfold Process.wait, Process.the_popen. rewrite Hpo. m_unfold.
    destruct (popen_wait pid timeout w) as [[v|e|] w1]; try reflexivity.
    intros self' record w' H.
    destruct (Process.join_all _ _ w1) as [[joined| |] w2] eqn:Ej; try discriminate.
    apply join_all_inv in Ej as (_ & _ & Hl & _).
    unfold popen_returncode in H. destruct (w_popens w2 !! pid); [|discriminate].
    injection H as _ _ <-. exact Hl.
  - intros q <-. apply (Pipe_wait_completion q (Some timeout) w).
Qed.

Lemma wait_joins_after_exit_witness :
  exists self' w1 self'' record w',
    Process.start
      (Process.mk "cat" [] (RetList ["cat"]) _UNDEFINED CAPTURE CAPTURE ∅
         None [] VNone VNone false VNone VNone VNone) (VStr "hi") world0
    = (Ret self', w1)
    /\ Process._popen self' = Some 0%nat
    /\ Process.wait self' (Some VNone) w1 = (Ret (self'', record), w')
    /\ firstn 3 (w_log w') = [CallJoin 2; CallJoin 1; CallJoin 0].
Proof.
  do 5 eexists. split; [vm_compute; reflexivity|].
  split; [reflexivity|].
  match goal with
  | |- Process.wait ?s _ ?w = _ /\ _ => pose (started := s); pose (w1 := w)
  end.
  split; [vm_compute; reflexivity|].
  destruct (wait_joins_after_exit started 0%nat VNone w1 eq_refl) as [H _].
  match goal with
  | |- firstn 3 (w_log ?w') = _ =>
      match type of H with
      | match ?x with _ => _ end =>
          change x with (Ret (VInt 1), snd (popen_wait 0 VNone w1)) in H
      end;
      cbv beta iota in H;
      rewrite (H _ _ w' ltac:(vm_compute; reflexivity))
  end.
  vm_compute. reflexivity.
Defined.

(** ** Starting a pipeline *)

Ltac m_unfold_in H :=
  unfold mbind, mret, fmap, M_bind, M_ret, M_fmap, m_bind, m_ret, lift, throw in H.

Lemma stdin_handle_file self f :
  Process._stdin self = VFile f -> Process.stdin_handle self VNone = Ok (PFile f).
Proof. intros H. unfold Process.stdin_handle. rewrite H. reflexivity. Qed.

Lemma out_handle_piped d h :
  Process._out_handle PIPE d true = Ok h -> h = SUBPROCESS_PIPE.
Proof. cbn. intros H. by injection H as <-. Qed.

(** The pipe end a started process exposes when it is piped through its
    stdout. *)
Lemma Process_start_pipe (self : Process.t) input w self' w' :
  piped self ->
  Process.start self input w = (Ret self', w') ->
  Process._pipe self' = VFile (ChildPipe (length (w_popens w)) Stdout)
  /\ exists req, w_popens w' = w_popens w ++ [mk_popen req None]
                 /\ req_stdout req = SUBPROCESS_PIPE.
Proof.
  intros [Hip Hso] H.
  apply Process_start_inv in H
    as (hin & hout & herr & new & _ & _ & Eout & _ & _ & -> & _ & _ & Hp & _).
  rewrite Hso, Hip in Eout. apply out_handle_piped in Eout as ->.
  destruct (expose_handles
              (Process.set_popen (Some (length (w_popens w))) self)
              (pipe_value (length (w_popens w)) Stdin hin)
              (pipe_value (length (w_popens w)) Stdout SUBPROCESS_PIPE)
              (pipe_value (length (w_popens w)) Stderr herr)) as (_ & _ & Hpipe & _).
  cbn [Process.set_popen Process._init_pipe Process._stdout Process._stderr
       Process._pipe] in Hpipe.
  rewrite Hip, Hso, py_eq_refl in Hpipe.
  split.
  - unfold Process.set_threads. process_fields. exact Hpipe.
  - eexists. split; [exact Hp | reflexivity].
Qed.

Lemma wired_snoc base reqs req :
  wired base reqs ->
  (reqs <> [] -> req_stdin req = PFile (ChildPipe (base + length reqs - 1) Stdout)) ->
  wired base (reqs ++ [req]).
Proof.
  intros Hw Hreq i r Hi.
  destruct (decide (S i < length reqs)%nat) as [Hlt|Hge].
  - rewrite lookup_app_l in Hi by exact Hlt. by apply Hw.
  - assert (Hlen : S i = length reqs).
    { apply lookup_lt_Some in Hi. rewrite length_app in Hi. cbn in Hi. lia. }
    rewrite lookup_app_r in Hi by lia. rewrite Hlen, Nat.sub_diag in Hi.
    injection Hi as <-. rewrite Hreq.
    + do 3 f_equal. lia.
    + intros ->. discriminate.
Qed.

(** What a [start] that returns has done to a runnable whose stages before
    the last are all piped. *)
Lemma start_of_wiring r :
  forall input w r' w',
    (forall q, r = RPipe q -> forall p, p ∈ stages (Pipe._preceding q) -> piped p) ->
    Pipe.start_of r input w = (Ret r', w') ->
    exists reqs,
      w_popens w' = w_popens w ++ ((fun x => mk_popen x None) <$> reqs)
      /\ length reqs = length (stages r)
      /\ wired (length (w_popens w)) reqs
      /\ req_args <$> reqs = Process._cmdline <$> stages r
      /\ Process._popen <$> stages r'
         = Some <$> seq (length (w_popens w)) (length (stages r))
      /\ (forall i req, reqs !! i = Some req -> (S i < length reqs)%nat ->
            req_stdout req = SUBPROCESS_PIPE)
      /\ (piped (terminal r) ->
            Pipe.pipe_of r'
            = VFile (ChildPipe (length (w_popens w) + length reqs - 1) Stdout)
            /\ forall req, last reqs = Some req -> req_stdout req = SUBPROCESS_PIPE).
Proof.
  induction r as [p|q IH] using runnable_chain_ind; intros input w r' w' Hpre H.
  - cbn [Pipe.start_of] in H. m_unfold_in H.
    destruct (Process.start p input w) as [[p'| |] w1] eqn:E; try discriminate.
    injection H as <- <-.
    pose proof (Process_start_popen _ _ _ _ _ E) as Hpo.
    pose proof E as E'.
    apply Process_start_inv in E'
      as (hin & hout & herr & new & _ & _ & _ & _ & _ & _ & _ & _ & Hp & _).
    eexists [_]. split; [exact Hp|]. split; [reflexivity|].
    split; [intros i req Hi; discriminate|].
    split; [reflexivity|].
    split; [cbn; by rewrite Hpo|].
    split; [intros i req Hi Hlt; cbn in Hlt; lia|].
    intros Hpiped. cbn [terminal] in Hpiped.
    destruct (Process_start_pipe _ _ _ _ _ Hpiped E) as (Hpipe & req & Hp' & Hso).
    rewrite Hp in Hp'. apply app_inv_head in Hp'. injection Hp' as Hreq.
    split.
    + cbn [Pipe.pipe_of length]. rewrite Hpipe. do 3 f_equal. lia.
    + intros req' Hl. cbn in Hl. injection Hl as <-. by rewrite Hreq.
  - specialize (Hpre q eq_refl).
    cbn [Pipe.start_of] in H. m_unfold_in H.
    destruct (Pipe.start_of (Pipe._preceding q) input w) as [[pre'| |] w1] eqn:E1;
      try discriminate.
    destruct (py_assert _ _) as [[]|]; [|discriminate].
    destruct (Process.start _ VNone w1) as [[process'| |] w2] eqn:E2; try discriminate.
    injection H as <- <-.
    assert (Hterm : piped (terminal (Pipe._preceding q))).
    { apply Hpre. destruct (Pipe._preceding q) as [p0|q0]; cbn [stages terminal].
      - by left.
      - apply elem_of_app. right. by left. }
    destruct (IH input w pre' w1) as (reqs1 & Hp1 & Hlen1 & Hw1 & Ha1 & Hpo1 & Hso1 & Hpipe1).
    { intros q0 Hq0 p Hp. apply Hpre. rewrite Hq0. cbn [stages].
      apply elem_of_app. by left. }
    { exact E1. }
    destruct (Hpipe1 Hterm) as (Hpipe & Hlast1).
    pose proof (Process_start_popen _ _ _ _ _ E2) as Hpo2.
    pose proof E2 as E2'.
    apply Process_start_inv in E2'
      as (hin & hout & herr & new & _ & Ein & _ & _ & _ & _ & _ & _ & Hp2 & _).
    rewrite (stdin_handle_file _ (ChildPipe (length (w_popens w) + length reqs1 - 1) Stdout))
      in Ein by (unfold Process.set_stdin; process_fields; exact Hpipe).
    injection Ein as <-.
    assert (Hne : (0 < length reqs1)%nat).
    { rewrite Hlen1. pose proof (stages_nonempty (Pipe._preceding q)).
      destruct (stages (Pipe._preceding q)); [done | cbn; lia]. }
    eexists (reqs1 ++ [_]).
    split.
    { rewrite Hp2, Hp1, fmap_app, <- app_assoc. reflexivity. }
    split.
    { cbn [stages]. rewrite !length_app, Hlen1. reflexivity. }
    split.
    { apply wired_snoc; [exact Hw1|]. intros _. reflexivity. }
    split.
    { cbn [stages]. rewrite !fmap_app, Ha1. cbn [fmap list_fmap req_args].
      unfold Process.set_stdin. by process_fields. }
    split.
    { cbn [stages Pipe._preceding Pipe._process]. rewrite !fmap_app, Hpo1.
      rewrite length_app. cbn [length fmap list_fmap].
      rewrite seq_app, fmap_app. cbn [seq fmap list_fmap].
      rewrite Hpo2, Hp1, length_app, length_fmap, Hlen1. reflexivity. }
    split.
    { intros i req Hi Hlt. rewrite length_app in Hlt. cbn in Hlt.
      rewrite lookup_app_l in Hi by lia.
      destruct (decide (S i < length reqs1)%nat) as [Hlt'|Hge]; [by eapply Hso1|].
      apply Hlast1. rewrite last_lookup.
      replace (Init.Nat.pred (length reqs1)) with i by lia. exact Hi. }
    intros Hpiped. cbn [terminal] in Hpiped.
    assert (Hpiped' : piped (Process.set_stdin (Pipe.pipe_of pre') (Pipe._process q))).
    { unfold piped, Process.set_stdin. process_fields. exact Hpiped. }
    destruct (Process_start_pipe _ _ _ _ _ Hpiped' E2) as (Hpipe2 & req & Hp2' & Hso2).
    rewrite Hp2 in Hp2'. apply app_inv_head in Hp2'. injection Hp2' as Hreq.
    split.
    + cbn [Pipe.pipe_of Pipe._pipe]. rewrite Hpipe2, Hp1, !length_app, length_fmap.
      cbn [length]. do 3 f_equal. lia.
    + intros req' Hl. rewrite last_snoc in Hl. injection Hl as <-. by rewrite Hreq.
Qed.

(** X17. Starting a pipeline built from a template, with a stderr mode
    other than [PIPE]: when [start] returns, one child per stage has been
    spawned, left to right, each with the resolved argv of its stage; every
    child but the first has as its stdin the stdout pipe of the child just
    before it, and every child but the last has its stdout opened as a
    pipe. *)
Theorem pipeline_wiring :
  forall cmd args stdin stdout stderr kwargs (q : Pipe.t),
    Pipe.__init__ cmd args None stdin stdout stderr kwargs = Ok q ->
    stderr <> PIPE ->
    forall input w r w',
      Pipe.start q input w = (Ret r, w') ->
      exists reqs,
        w_popens w' = w_popens w ++ ((fun x => mk_popen x None) <$> reqs)
        /\ length reqs = length (stages (RPipe q))
        /\ req_args <$> reqs = Process._cmdline <$> stages (RPipe q)
        /\ Process._popen <$> stages r
           = Some <$> seq (length (w_popens w)) (length (stages (RPipe q)))
        /\ wired (length (w_popens w)) reqs
        /\ (forall i req, reqs !! i = Some req -> (S i < length reqs)%nat ->
              req_stdout req = SUBPROCESS_PIPE).
Proof.
  intros cmd args stdin stdout stderr kwargs q Hq Herr input w r w' Hs.
  apply init_fuel_stages in Hq as (first & middle & Hst & _ & _ & _ & _ & _ & Hpre).
  destruct (start_of_wiring (RPipe q) input w r w')
    as (reqs & Hp & Hlen & Hw & Ha & Hpo & Hso & _).
  - intros q0 Hq0 p Hp. injection Hq0 as <-. rewrite Hst in Hp.
    destruct (Hpre p Hp) as [Hip Hout]. split; [exact Hip|].
    by rewrite (proj2 (py_eq_false stderr PIPE) Herr) in Hout.
  - exact Hs.
  - exists reqs. repeat split; assumption.
Qed.

Lemma pipeline_wiring_witness :
  exists (q : Pipe.t) r w',
    Pipe.__init__ "a | b | c" [] None _UNDEFINED CAPTURE _UNDEFINED ∅ = Ok q
    /\ Pipe.start q VNone world0 = (Ret r, w')
    /\ exists reqs,
         w_popens w' = w_popens world0 ++ ((fun x => mk_popen x None) <$> reqs)
         /\ length reqs = length (stages (RPipe q))
         /\ req_args <$> reqs = Process._cmdline <$> stages (RPipe q)
         /\ Process._popen <$> stages r
            = Some <$> seq (length (w_popens world0)) (length (stages (RPipe q)))
         /\ wired (length (w_popens world0)) reqs
         /\ (forall i req, reqs !! i = Some req -> (S i < length reqs)%nat ->
               req_stdout req = SUBPROCESS_PIPE).
Proof.
  do 3 eexists. split; [vm_compute; reflexivity|].
  split; [vm_compute; reflexivity|].
  eapply (pipeline_wiring "a | b | c" [] _UNDEFINED CAPTURE _UNDEFINED ∅)
    with (input := VNone);
    [vm_compute; reflexivity | discriminate | vm_compute; reflexivity].
Defined.

(** X18. After a [start] that returns, the [input] handle of a runnable is
    the one of its first stage, and its [output] handle and its pipe end are
    those of its last stage, however long the chain. *)
Theorem started_handles_come_from_the_ends :
  forall (r : runnable) (input : value) (w : World) r' w',
    Runnable.start r input w = (Ret r', w') ->
    Runnable.input r' = Process._input (first_stage r')
    /\ Runnable.output r' = Process._output (terminal r')
    /\ Pipe.pipe_of r' = Process._pipe (terminal r').
Proof.
  unfold Runnable.start, Runnable.input, Runnable.output.
  induction r as [p|q IH] using runnable_chain_ind; intros input w r' w' H.
  - cbn [Pipe.start_of] in H. m_unfold_in H.
    destruct (Process.start p input w) as [[p'| |] w1]; try discriminate.
    injection H as <- <-. repeat split.
  - cbn [Pipe.start_of] in H. m_unfold_in H.
    destruct (Pipe.start_of (Pipe._preceding q) input w) as [[pre'| |] w1] eqn:E1;
      try discriminate.
    destruct (py_assert _ _) as [[]|]; [|discriminate].
    destruct (Process.start _ VNone w1) as [[process'| |] w2]; try discriminate.
    injection H as <- <-.
    destruct (IH _ _ _ _ E1) as (Hin & _).
    cbn [Pipe.input_of Pipe.output_of Pipe.pipe_of first_stage terminal
         Pipe._preceding Pipe._process Pipe._input Pipe._output Pipe._pipe].
    repeat split. exact Hin.
Qed.

Lemma started_handles_come_from_the_ends_witness :
  exists (q : Pipe.t) r' w',
    Pipe.new "cat | cat" [] None kw_two_interactive = Ok q
    /\ Runnable.start (RPipe q) VNone world0 = (Ret r', w')
    /\ Runnable.input r' = Process._input (first_stage r')
    /\ Runnable.output r' = Process._output (terminal r')
    /\ Pipe.pipe_of r' = Process._pipe (terminal r')
    /\ Runnable.input r' = VFile (ChildPipe 0 Stdin)
    /\ Runnable.output r' = VFile (ChildPipe 1 Stdout).
Proof.
  do 3 eexists. split; [vm_compute; reflexivity|].
  match goal with
  | |- Runnable.start ?r _ _ = _ /\ _ => pose (built := r)
  end.
  split; [vm_compute; reflexivity|].
  match goal with
  | |- Runnable.input ?r' = _ /\ _ =>
      destruct (started_handles_come_from_the_ends built VNone world0 r' _
                  ltac:(vm_compute; reflexivity)) as (H1 & H2 & H3)
  end.
  split; [exact H1|]. split; [exact H2|]. split; [exact H3|].
  split; reflexivity.
Defined.

(** ** [iterate] *)

Lemma start_keeps_env (p : Process.t) input w p' w1 :
  Process.start p input w = (Ret p', w1) -> w_env w1 = w_env w.
Proof.
  intros H. by apply Process_start_inv in H
    as (? & ? & ? & ? & _ & _ & _ & _ & _ & _ & _ & _ & _ & He & _).
Qed.

(** The output handle of a process that [start] has returned, when none was
    exposed before. *)
Lemma started_output (p : Process.t) input w p' w1 :
  Process._output p = VNone ->
  Process.start p input w = (Ret p', w1) ->
  Process._output p'
  = if py_eq (Process._stdin p) INTERACT then VNone
    else if py_eq (Process._stdout p) INTERACT
         then VFile (ChildPipe (length (w_popens w)) Stdout)
         else if py_eq (Process._stderr p) INTERACT
              then VFile (ChildPipe (length (w_popens w)) Stderr)
              else VNone.
Proof.
  intros Ho H.
  apply Process_start_inv in H
    as (hin & hout & herr & new & _ & _ & Eout & Eerr & _ & -> & _).
  destruct (expose_handles (Process.set_popen (Some (length (w_popens w))) p)
              (pipe_value (length (w_popens w)) Stdin hin)
              (pipe_value (length (w_popens w)) Stdout hout)
              (pipe_value (length (w_popens w)) Stderr herr)) as (_ & Hout' & _).
  unfold Process.set_threads. process_fields.
  cbn [Process.set_popen Process._stdin Process._stdout Process._stderr
       Process._output] in Hout'.
  rewrite Hout', Ho.
  destruct (py_eq (Process._stdin p) INTERACT); [reflexivity|].
  destruct (py_eq (Process._stdout p) INTERACT) eqn:E2.
  - apply py_eq_true in E2. rewrite E2 in Eout.
    by rewrite (out_handle_interact _ _ _ Eout).
  - destruct (py_eq (Process._stderr p) INTERACT) eqn:E3; [|reflexivity].
    apply py_eq_true in E3. rewrite E3 in Eerr.
    by rewrite (out_handle_interact _ _ _ Eerr).
Qed.

(** X19. [iterate] on a single process never ends normally, and whenever
    it yielded something it ends with the [TypeError] of [self.wait()],
    which [Process.wait] cannot be called like.  A non-null timeout raises
    [AssertionError] ('not implemented') before anything is started.  With
    no timeout, on a process with no output handle exposed before: what
    [start] raises is what [iterate] ends with, nothing yielded; when
    [start] returns and no output handle is exposed (stdin is Interact, or
    neither stdout nor stderr is), it ends with [AssertionError], nothing
    yielded; otherwise it yields the lines of everything the child writes
    to its stdout if stdout is Interact, else to its stderr, and then ends
    with that [TypeError], also when there was no line at all. *)
Theorem iterate_on_process_never_completes :
  forall (p : Process.t) (input timeout : value) (w : World),
    let result := Runnable.iterate (RProcess p) input timeout w in
    let type_error :=
      Throw (mk_exn TypeError "wait() missing 1 required positional argument: 'timeout'") in
    let no_output := Throw (mk_exn AssertionError EmptyString) in
    Runnable.ending (fst result) <> Ret tt
    /\ (Runnable.yielded (fst result) <> [] -> Runnable.ending (fst result) = type_error)
    /\ (timeout <> VNone ->
        result = (Runnable.mk_exhausted []
                    (Throw (mk_exn AssertionError "not implemented")), w))
    /\ (timeout = VNone -> Process._output p = VNone ->
        match Process.start p VNone w with
        | (Throw e, w1) => result = (Runnable.mk_exhausted [] (Throw e), w1)
        | (Hang, w1) => result = (Runnable.mk_exhausted [] Hang, w1)
        | (Ret _, w1) =>
            let pid := length (w_popens w) in
            if py_eq (Process._stdin p) INTERACT
            then result = (Runnable.mk_exhausted [] no_output, w1)
            else if py_eq (Process._stdout p) INTERACT
            then result
                 = (Runnable.mk_exhausted
                      (VStr <$> readlines (env_read (w_env w) pid Stdout)) type_error,
                    w1)
            else if py_eq (Process._stderr p) INTERACT
            then result
                 = (Runnable.mk_exhausted
                      (VStr <$> readlines (env_read (w_env w) pid Stderr)) type_error,
                    w1)
            else result = (Runnable.mk_exhausted [] no_output, w1)
        end).
Proof.
  intros p input timeout w result type_error no_output.
  subst result type_error no_output. unfold Runnable.iterate.
  destruct (py_eq timeout VNone) eqn:Et; cbn [negb].
  2:{ apply py_eq_false in Et. cbn. repeat split; [discriminate | done | done]. }
  apply py_eq_true in Et. subst timeout.
  unfold Runnable.start. cbn [Pipe.start_of].
  unfold fmap, M_fmap, m_bind, m_ret.
  destruct (Process.start p VNone w) as [[p'| |] w1] eqn:Es.
  - pose proof (start_keeps_env _ _ _ _ _ Es) as Henv.
    unfold Runnable.output. cbn [Pipe.output_of].
    split; [|split; [|split; [done|]]].
    + destruct (truthy (Process._output p')); cbn [negb]; [|cbn; discriminate].
      destruct (Process._output p') as [ | | |[ | | | |pid s]| ]; cbn; discriminate.
    + destruct (truthy (Process._output p')); cbn [negb]; [|cbn; done].
      destruct (Process._output p') as [ | | |[ | | | |pid s]| ]; cbn; done.
    + intros _ Ho. rewrite (started_output _ _ _ _ _ Ho Es), Henv.
      destruct (py_eq (Process._stdin p) INTERACT); [reflexivity|].
      destruct (py_eq (Process._stdout p) INTERACT); [reflexivity|].
      destruct (py_eq (Process._stderr p) INTERACT); reflexivity.
  - cbn. repeat split; [discriminate | done | done].
  - cbn. repeat split; [discriminate | done | done].
Qed.

(** X19 at [Process('cat', stdout=INTERACT)] in [world0], where the child
    prints [out]: one line is yielded, then [TypeError]. *)
Lemma iterate_on_process_never_completes_witness :
  exists p : Process.t,
    Process.call "cat" [] (<["stdout" := INTERACT]> ∅) = Ok p
    /\ Process._output p = VNone
    /\ Runnable.iterate (RProcess p) VNone VNone world0
       = (Runnable.mk_exhausted [VStr "out"]
            (Throw (mk_exn TypeError
                      "wait() missing 1 required positional argument: 'timeout'")),
          snd (Process.start p VNone world0)).
Proof.
  eexists. split; [vm_compute; reflexivity|]. split; [reflexivity|].
  match goal with
  | |- Runnable.iterate (RProcess ?p) _ _ _ = _ =>
      destruct (iterate_on_process_never_completes p VNone VNone world0)
        as (_ & _ & _ & H)
  end.
  specialize (H eq_refl eq_refl). exact H.
Defined.
